(** * Privacy policy transparency scoring (P6): a shallow embedding

    Embedding of [src/privacy/privacy_policy_analyzer.py], class
    [PrivacyPolicyAnalyzer].

    Modelling conventions.
    - A Python [float] is modelled by the exact rational it denotes ([Q]);
      arithmetic is exact, and [round(x, n)] gives a multiple of [10^-n]
      nearest to the exact value. Which of the two it is when the exact
      value is halfway is left to a parameter ([Ties]): the code rounds the
      double that its float arithmetic produced, which lies on either side
      of such a point. Every statement over [Q] holds whichever way the
      halfway cases fall.
    - [Binary64] has the two score functions that end in [round] of a
      computed value once more on doubles, operation by operation as the
      code computes them, for the value returned at a given input.
    - A Python [int] is a [Z]; [len] returns a [nat].
    - A [str] is a [string] whose characters are code points below 256.
    - The metrics [dict] is a [gmap string Q] (a lookup of a missing key
      raises [KeyError]); [self.policies] is an association list, in
      insertion order, as [dict.items()] iterates it.
    - The network, the HTML parser and the clock are the [World] a call runs
      in; the [textstat] library is the record [Textstat] of its functions.
    - [print] appends a [message] to the output of the call; building the
      report with [pandas] and writing a file are taken to succeed, and are
      the messages [ComparativeReport], [SavedCsv] and [SavedJson]. *)

From Stdlib Require Import ZArith QArith Qround Qminmax Lqa Lia.
From Stdlib Require Import String Ascii List.
From Stdlib Require PrimFloat FloatOps SpecFloat Uint63.
From stdpp Require Import gmap strings.

Local Open Scope Q_scope.

(** ** Numbers *)

Module PyNum.

(** The way a halfway case falls. The code rounds the double that its
    float arithmetic produced. Where the exact value of an expression is
    halfway between two multiples of [10^-n], that double lies just below
    the halfway point, just above it or on it, so either neighbour can come
    out (see [Binary64] for the cases). [ties_up q] tells whether [q],
    halfway between two integers, goes to the upper one. *)
Class Ties : Type := ties_up : Q -> bool.

(** An integer nearest to [q]. *)
Definition round_nearest {ties : Ties} (q : Q) : Z :=
  let f := Qfloor q in
  match Qcompare (q - inject_Z f) (1 # 2) with
  | Lt => f
  | Gt => (f + 1)%Z
  | Eq => if ties_up (Qred q) then (f + 1)%Z else f
  end.

(** To the even neighbour, as [round] does for a double that is itself
    halfway. *)
#[global] Instance ties_to_even : Ties := fun q => negb (Z.even (Qfloor q)).

Definition pow10 (n : nat) : Q := inject_Z (10 ^ Z.of_nat n).

(** [round(x, ndigits)] on a float. *)
Definition py_round {ties : Ties} (x : Q) (ndigits : nat) : Q :=
  inject_Z (round_nearest (x * pow10 ndigits)) / pow10 ndigits.

(** [max(a, b)]: [b] when [b > a], else [a]. [min(a, b)]: [b] when [b < a],
    else [a]. These are [Qmax] and [Qmin]. *)
Definition py_max (a b : Q) : Q := Qmax a b.
Definition py_min (a b : Q) : Q := Qmin a b.

End PyNum.
Import PyNum.

(** ** Doubles *)

Module Binary64.

Import PrimFloat FloatOps SpecFloat.
Local Open Scope float_scope.

(** [float(z)], for an integer below [2^53] in magnitude. *)
Definition of_Z (z : Z) : float :=
  match z with
  | Z0 => 0
  | Zpos _ => of_uint63 (Uint63.of_Z z)
  | Zneg p => - of_uint63 (Uint63.of_Z (Zpos p))
  end.

(** The magnitude of a finite double, exactly; [None] for an infinity and
    for a NaN. *)
Definition magnitude (x : float) : option Q :=
  match Prim2SF x with
  | S754_zero _ => Some 0%Q
  | S754_finite _ m e =>
    Some (match e with
          | Zneg p => Zpos m # 2 ^ p
          | _ => inject_Z (Zpos m * 2 ^ e)
          end)
  | _ => None
  end.

(** [round(x, ndigits)]: the double nearest to the decimal of [ndigits]
    places that is nearest to the exact value of [x], the even one of two
    that are equally near; an infinity and a NaN are returned as they
    are. *)
Definition round (x : float) (ndigits : nat) : float :=
  match magnitude x with
  | None => x
  | Some q =>
    let scale := (10 ^ Z.of_nat ndigits)%Z in
    let nearest :=
      of_Z (round_nearest (ties := ties_to_even) (q * inject_Z scale))
      / of_Z scale in
    if get_sign x then - nearest else nearest
  end.

(** [max(a, b)] and [min(a, b)] *)
Definition max (a b : float) : float := if a <? b then b else a.
Definition min (a b : float) : float := if b <? a then b else a.

Definition calculate_third_score (third_party_count text_length : Z) : float :=
  if (text_length =? 0)%Z then 0 else
  let words := of_Z text_length / 5 in
  let mentions_per_1000 :=
    if 0 <? words then (of_Z third_party_count / words) * 1000 else 0 in
  let score :=
    if mentions_per_1000 <? 5 then mentions_per_1000 / 5
    else if mentions_per_1000 <=? 15 then 1
    else max 0.5 (1 - ((mentions_per_1000 - 15) / 20)) in
  round score 3.

Definition calculate_p6_score (read_score third_score : float) : float :=
  let p6_score := (0.5 * read_score) + (0.5 * third_score) in
  round p6_score 3.

End Binary64.

(** ** Sub-scores and the combined score *)

Inductive exn : Type :=
| KeyError (key : string).

Inductive outcome (A : Type) : Type :=
| Returns (a : A)
| Raises (e : exn).
Arguments Returns {A} a.
Arguments Raises {A} e.

#[global] Instance outcome_bind : MBind outcome := fun A B k o =>
  match o with
  | Returns a => k a
  | Raises e => Raises e
  end.

(** [metrics[key]] *)
Definition getitem (metrics : gmap string Q) (key : string) : outcome Q :=
  match metrics !! key with
  | Some v => Returns v
  | None => Raises (KeyError key)
  end.

(** [not metrics], for [metrics] a dict or [None]. *)
Definition falsy_dict (metrics : option (gmap string Q)) : bool :=
  match metrics with
  | None => true
  | Some m => bool_decide (m = ∅)
  end.

Definition calculate_read_score {ties : Ties} (metrics : option (gmap string Q)) : outcome Q :=
  if falsy_dict metrics then Returns 0 else
  match metrics with
  | None => Returns 0
  | Some m =>
    fre ← getitem m "flesch_reading_ease";
    let flesch_normalized := py_max 0 (py_min 100 fre) / 100 in
    grade_level ← getitem m "flesch_kincaid_grade";
    let grade_normalized := py_max 0 (1 - py_min grade_level 20 / 20) in
    text_std ← getitem m "text_standard";
    let text_std_normalized := py_max 0 (1 - py_min text_std 20 / 20) in
    let read_score :=
      (flesch_normalized + grade_normalized + text_std_normalized) / 3 in
    Returns (py_round read_score 3)
  end.

(** The local [mentions_per_1000] of [calculate_third_score], for
    [text_length <> 0]. *)
Definition mentions_per_1000 (third_party_count text_length : Z) : Q :=
  let words := inject_Z text_length / 5 in
  if Qlt_le_dec 0 words
  then inject_Z third_party_count / words * 1000
  else 0.

(** The local [score] of [calculate_third_score]. *)
Definition density_score (mentions_per_1000 : Q) : Q :=
  if Qlt_le_dec mentions_per_1000 5 then mentions_per_1000 / 5
  else if Qle_bool mentions_per_1000 15 then 1
  else py_max (5 # 10) (1 - (mentions_per_1000 - 15) / 20).

Definition calculate_third_score {ties : Ties} (third_party_count text_length : Z) : Q :=
  if (text_length =? 0)%Z then 0 else
  let mentions_per_1000 := mentions_per_1000 third_party_count text_length in
  let score := density_score mentions_per_1000 in
  py_round score 3.

Definition calculate_p6_score {ties : Ties} (read_score third_score : Q) : Q :=
  let p6_score := (5 # 10) * read_score + (5 # 10) * third_score in
  py_round p6_score 3.

(** ** Text *)

Module PyStr.

Local Open Scope string_scope.
Local Open Scope nat_scope.

(** [str.isspace] on a code point below 256; [\s] of [re] and the
    separators of [str.split()] are the same characters. *)
Definition is_space (c : ascii) : bool :=
  let n := nat_of_ascii c in
  ((9 <=? n) && (n <=? 13)) || ((28 <=? n) && (n <=? 32))
  || (n =? 133) || (n =? 160).

(** [not text], for [text] a str or [None]. *)
Definition falsy_str (text : option string) : bool :=
  match text with
  | None => true
  | Some s => bool_decide (s = "")
  end.

(** [re.sub(r'\s+', ' ', text)]; [in_run] tells that the previous character
    was whitespace, already replaced. *)
Fixpoint re_sub_spaces (in_run : bool) (text : string) : string :=
  match text with
  | EmptyString => EmptyString
  | String c rest =>
    if is_space c
    then if in_run then re_sub_spaces true rest
         else String " " (re_sub_spaces true rest)
    else String c (re_sub_spaces false rest)
  end.

(** [text.split()]; [word] is the word being read. *)
Fixpoint split_from (word : string) (text : string) : list string :=
  match text with
  | EmptyString => if bool_decide (word = "") then [] else [word]
  | String c rest =>
    if is_space c
    then if bool_decide (word = "") then split_from "" rest
         else word :: split_from "" rest
    else split_from (word ++ String c "") rest
  end.

Definition split (text : string) : list string := split_from "" text.

(** [str.lower] on a code point below 256. *)
Definition lower_char (c : ascii) : ascii :=
  let n := nat_of_ascii c in
  if ((65 <=? n) && (n <=? 90))
     || ((192 <=? n) && (n <=? 222) && negb (n =? 215))
  then ascii_of_nat (n + 32)
  else c.

Fixpoint lower (text : string) : string :=
  match text with
  | EmptyString => EmptyString
  | String c rest => String (lower_char c) (lower rest)
  end.

(** [text.count(sub)] for a non-empty [sub]: occurrences that do not
    overlap, found from the left; [skip] characters of the last occurrence
    are still to be passed. *)
Fixpoint count_from (skip : nat) (sub text : string) : nat :=
  match text with
  | EmptyString => 0
  | String _ rest =>
    match skip with
    | S k => count_from k sub rest
    | O =>
      if String.prefix sub text
      then S (count_from (String.length sub - 1) sub rest)
      else count_from 0 sub rest
    end
  end.

Definition count (text sub : string) : nat := count_from 0 sub text.

End PyStr.
Import PyStr.

Definition keywords : list string :=
  [ "third party"; "third-party"; "partners"; "affiliates";
    "share with"; "disclose to"; "sell"; "transfer";
    "advertisers"; "service providers"; "vendors" ]%string.

Definition analyze_third_party_mentions (text : option string) : Z :=
  if falsy_str text then 0%Z else
  match text with
  | None => 0%Z
  | Some text =>
    let text_lower := lower text in
    Z.of_nat (list_sum (map (count text_lower) keywords))
  end.

(** ** The readability library *)

(** The functions of [textstat] that [analyze_readability] calls;
    [text_standard] is called with [float_output=True]. *)
Record Textstat : Type := {
  flesch_reading_ease : string -> Q;
  flesch_kincaid_grade : string -> Q;
  gunning_fog : string -> Q;
  smog_index : string -> Q;
  coleman_liau_index : string -> Q;
  automated_readability_index : string -> Q;
  dale_chall_readability_score : string -> Q;
  difficult_words : string -> Q;
  linsear_write_formula : string -> Q;
  text_standard : string -> Q
}.

(** The dict [metrics] that [analyze_readability] builds, key by key. *)
Definition metrics_of (textstat : Textstat) (text : string) : gmap string Q :=
  <["text_standard" := text_standard textstat text]>
  (<["linsear_write_formula" := linsear_write_formula textstat text]>
  (<["difficult_words" := difficult_words textstat text]>
  (<["dale_chall_readability_score" :=
       dale_chall_readability_score textstat text]>
  (<["automated_readability_index" :=
       automated_readability_index textstat text]>
  (<["coleman_liau_index" := coleman_liau_index textstat text]>
  (<["smog_index" := smog_index textstat text]>
  (<["gunning_fog" := gunning_fog textstat text]>
  (<["flesch_kincaid_grade" := flesch_kincaid_grade textstat text]>
  (<["flesch_reading_ease" := flesch_reading_ease textstat text]>
   ∅))))))))).

Definition analyze_readability (textstat : Textstat) (text : option string)
  : option (gmap string Q) :=
  if falsy_str text then None else
  match text with
  | None => None
  | Some text =>
    if (String.length text <? 100)%nat then None else
    let metrics := metrics_of textstat text in
    Some metrics
  end.

(** ** The pipeline *)

(** What a call finds outside the program. [page_text url] is the text that
    [soup.get_text(separator=' ', strip=True)] yields for the page at [url]
    once its script, style, nav, footer and header elements are removed, and
    [None] when the request, its status check or the parser raises.
    [now platform] is the formatted [datetime.now()] at the time the
    platform is analysed. *)
Record World : Type := {
  page_text : string -> option string;
  now : string -> string
}.

Record AnalysisResult : Type := {
  Platform : string;
  URL : string;
  Analysis_Date : string;
  Word_Count : nat;
  Character_Count : nat;
  Flesch_Reading_Ease : Q;
  Flesch_Kincaid_Grade : Q;
  Gunning_Fog : Q;
  Text_Standard : Q;
  Third_Party_Mentions : Z;
  READ_Score : Q;
  THIRD_Score : Q;
  P6_Score : Q
}.

(** What is printed or written. Consecutive prints that render the same
    data are one message. *)
Inductive message : Type :=
| ErrorFetching (url : string)
| Analyzing (platform_name url : string)
| FailedToExtract (platform_name : string)
| Extracted (word_count text_length : nat)
| FailedReadability
| ReadabilityLines (ease grade standard : Q)
| ThirdPartyMentions (third_party_count : Z)
| Scores (read_score third_score p6_score : Q)
| AnalysisBanner
| NoResultsToReport
| ComparativeReport (df : list AnalysisResult)
| NoResultsToSave
| SavedCsv (filename : string) (df : list AnalysisResult)
| SavedJson (json_filename : string) (results : list AnalysisResult)
| AnalysisComplete.

(** A call that prints and may raise. *)
Definition Run (A : Type) : Type := (outcome A * list message)%type.

#[global] Instance run_ret : MRet Run := fun A a => (Returns a, []).

#[global] Instance run_bind : MBind Run := fun A B k m =>
  match m with
  | (Returns a, out) => let '(r, out') := k a in (r, out ++ out')
  | (Raises e, out) => (Raises e, out)
  end.

Definition print (m : message) : Run unit := (Returns tt, [m]).
Definition lift {A : Type} (o : outcome A) : Run A := (o, []).

Definition extract_text_from_url (w : World) (url : string)
  : Run (option string) :=
  match page_text w url with
  | Some text =>
    let text := re_sub_spaces false text in
    mret (Some text)
  | None =>
    _ ← print (ErrorFetching url);
    mret None
  end.

Section Pipeline.

Context {ties : Ties}.

Variable textstat : Textstat.
Variable w : World.

Definition analyze_platform (platform_name url : string)
  : Run (option AnalysisResult) :=
  _ ← print (Analyzing platform_name url);
  text ← extract_text_from_url w url;
  if falsy_str text then
    _ ← print (FailedToExtract platform_name);
    mret None
  else
  match text with
  | None => mret None
  | Some text =>
    let text_length := String.length text in
    let word_count := length (split text) in
    _ ← print (Extracted word_count text_length);
    let metrics := analyze_readability textstat (Some text) in
    if falsy_dict metrics then
      _ ← print FailedReadability;
      mret None
    else
    match metrics with
    | None => mret None
    | Some m =>
      ease ← lift (getitem m "flesch_reading_ease");
      grade ← lift (getitem m "flesch_kincaid_grade");
      standard ← lift (getitem m "text_standard");
      _ ← print (ReadabilityLines ease grade standard);
      let third_party_count := analyze_third_party_mentions (Some text) in
      _ ← print (ThirdPartyMentions third_party_count);
      read_score ← lift (calculate_read_score metrics);
      let third_score :=
        calculate_third_score third_party_count (Z.of_nat text_length) in
      let p6_score := calculate_p6_score read_score third_score in
      _ ← print (Scores read_score third_score p6_score);
      fog ← lift (getitem m "gunning_fog");
      mret (Some {|
        Platform := platform_name;
        URL := url;
        Analysis_Date := now w platform_name;
        Word_Count := word_count;
        Character_Count := text_length;
        Flesch_Reading_Ease := py_round ease 2;
        Flesch_Kincaid_Grade := py_round grade 2;
        Gunning_Fog := py_round fog 2;
        Text_Standard := py_round standard 2;
        Third_Party_Mentions := third_party_count;
        READ_Score := read_score;
        THIRD_Score := third_score;
        P6_Score := p6_score |})
    end
  end.

End Pipeline.

(** ** The analyzer object *)

Record Analyzer : Type := {
  policies : list (string * string);
  results : list AnalysisResult
}.

(** [PrivacyPolicyAnalyzer()] *)
Definition init : Analyzer := {|
  policies :=
    [ ("Meta", "https://www.facebook.com/privacy/policy/");
      ("Google", "https://policies.google.com/privacy");
      ("Microsoft", "https://privacy.microsoft.com/en-us/privacystatement");
      ("Proton", "https://proton.me/legal/privacy") ]%string;
  results := []
|}.

(** [self.results.append(result)] *)
Definition append_result (self : Analyzer) (result : AnalysisResult) : Analyzer :=
  {| policies := policies self; results := results self ++ [result] |}.

(** A method call: what it returns or raises, the object after it, and what
    it printed. *)
Definition Call (A : Type) : Type := (outcome A * Analyzer * list message)%type.

Section Batch.

Context {ties : Ties}.

Variable textstat : Textstat.
Variable w : World.

(** The [for] loop of [analyze_all] over the remaining [items]. *)
Fixpoint analyze_items (items : list (string * string)) (self : Analyzer)
  : Call unit :=
  match items with
  | [] => (Returns tt, self, [])
  | (platform, url) :: rest =>
    match analyze_platform textstat w platform url with
    | (Raises e, out) => (Raises e, self, out)
    | (Returns result, out) =>
      let self :=
        match result with
        | Some r => append_result self r
        | None => self
        end in
      let '(v, self, out') := analyze_items rest self in
      (v, self, out ++ out')
    end
  end.

Definition analyze_all (self : Analyzer) : Call (list AnalysisResult) :=
  match analyze_items (policies self) self with
  | (Returns _, self, out) => (Returns (results self), self, AnalysisBanner :: out)
  | (Raises e, self, out) => (Raises e, self, AnalysisBanner :: out)
  end.

End Batch.

(** [generate_report] returns the data frame of the results, or [None]. *)
Definition generate_report (self : Analyzer) : Run (option (list AnalysisResult)) :=
  match results self with
  | [] =>
    _ ← print NoResultsToReport;
    mret None
  | _ :: _ =>
    let df := results self in
    _ ← print (ComparativeReport df);
    mret (Some df)
  end.

(** The classes that the last loop of [generate_report] prints, and its
    local [classification] for a row of P6 score [p6_score]. *)
Inductive transparency : Type :=
| StrongTransparency
| ModerateTransparency
| PoorTransparency.

Definition classification (p6_score : Q) : transparency :=
  if Qle_bool (7 # 10) p6_score then StrongTransparency
  else if Qle_bool (5 # 10) p6_score then ModerateTransparency
  else PoorTransparency.

Module PyReplace.

(** [text.replace(old, new)] for a non-empty [old]. *)
Fixpoint replace_from (skip : nat) (old new text : string) : string :=
  match text with
  | EmptyString => EmptyString
  | String c rest =>
    match skip with
    | S k => replace_from k old new rest
    | O =>
      if String.prefix old text
      then (new ++ replace_from (String.length old - 1) old new rest)%string
      else String c (replace_from 0 old new rest)
    end
  end.

Definition replace (text old new : string) : string :=
  replace_from 0 old new text.

End PyReplace.

Definition save_results (self : Analyzer) (filename : string) : Run unit :=
  match results self with
  | [] =>
    _ ← print NoResultsToSave;
    mret tt
  | _ :: _ =>
    let df := results self in
    _ ← print (SavedCsv filename df);
    let json_filename := PyReplace.replace filename ".csv" ".json" in
    _ ← print (SavedJson json_filename (results self));
    mret tt
  end.

(** [main()]: the value it returns or the exception that escapes it, the
    analyzer it leaves, and its output. *)
Definition main {ties : Ties} (textstat : Textstat) (w : World) : Call unit :=
  let analyzer := init in
  match analyze_all textstat w analyzer with
  | (Raises e, analyzer, out) => (Raises e, analyzer, out)
  | (Returns _, analyzer, out) =>
    let '(r, out') :=
      (_ ← generate_report analyzer;
       _ ← save_results analyzer "privacy_policy_analysis.csv";
       print AnalysisComplete) in
    (r, analyzer, out ++ out')
  end.

(** ** Vocabulary of the statements *)

(** The keys of the dict that [analyze_readability] builds. *)
Definition metric_names : gset string :=
  list_to_set
    [ "flesch_reading_ease"; "flesch_kincaid_grade"; "gunning_fog";
      "smog_index"; "coleman_liau_index"; "automated_readability_index";
      "dale_chall_readability_score"; "difficult_words";
      "linsear_write_formula"; "text_standard" ]%string.

(** The text [extract_text_from_url] hands on, when the fetch did not raise. *)
Definition extracted (w : World) (url : string) : option string :=
  re_sub_spaces false <$> page_text w url.

(** The fetch of a document raised. *)
Definition fetch_failed (w : World) (item : string * string) : bool :=
  bool_decide (page_text w item.2 = None).

(** The document was fetched, and its text is empty or under 100 characters. *)
Definition text_too_short (w : World) (item : string * string) : bool :=
  match extracted w item.2 with
  | Some text => (String.length text <? 100)%nat
  | None => false
  end.

(** How many elements of [l] satisfy [p]. *)
Definition tally {A : Type} (p : A -> bool) (l : list A) : nat :=
  length (List.filter p l).

(** The entries one pass over [items] yields, in order. *)
Definition batch_entries {ties : Ties} (textstat : Textstat) (w : World)
    (items : list (string * string)) : list AnalysisResult :=
  omap (fun item : string * string =>
          match (analyze_platform textstat w item.1 item.2).1 with
          | Returns (Some r) => Some r
          | _ => None
          end) items.

(** What one pass over [items] prints, in order. *)
Definition batch_output {ties : Ties} (textstat : Textstat) (w : World)
    (items : list (string * string)) : list message :=
  concat (map (fun item : string * string =>
                 (analyze_platform textstat w item.1 item.2).2) items).

(** The entry that [analyze_platform] builds from a text of at least 100
    characters, given its READ sub-score. *)
Definition entry_of {ties : Ties} (textstat : Textstat) (w : World)
    (platform_name url text : string) (read_score : Q) : AnalysisResult :=
  let third_party_count := analyze_third_party_mentions (Some text) in
  let third_score :=
    calculate_third_score third_party_count (Z.of_nat (String.length text)) in
  {| Platform := platform_name;
     URL := url;
     Analysis_Date := now w platform_name;
     Word_Count := length (split text);
     Character_Count := String.length text;
     Flesch_Reading_Ease := py_round (flesch_reading_ease textstat text) 2;
     Flesch_Kincaid_Grade := py_round (flesch_kincaid_grade textstat text) 2;
     Gunning_Fog := py_round (gunning_fog textstat text) 2;
     Text_Standard := py_round (text_standard textstat text) 2;
     Third_Party_Mentions := third_party_count;
     READ_Score := read_score;
     THIRD_Score := third_score;
     P6_Score := calculate_p6_score read_score third_score |}.

(** How far a score rounded to three decimals lies at most from the exact
    value of the expression that was rounded: half a step of the grid, and
    a margin for the error of the float arithmetic that produced the double
    the code rounds. *)
Definition rounding_distance : Q := (1 # 2000) + (1 # 1000000000000).

(** A line that tells that a document was dropped. *)
Definition is_failure_line (m : message) : bool :=
  match m with
  | FailedToExtract _ | FailedReadability => true
  | _ => false
  end.

(** A line that tells that a fetch raised. *)
Definition is_fetch_error_line (m : message) : bool :=
  match m with
  | ErrorFetching _ => true
  | _ => false
  end.

(** No whitespace in [text] but single spaces, none of them next to
    another; [after_space] tells that the previous character was a space. *)
Fixpoint single_spaced (after_space : bool) (text : string) : bool :=
  match text with
  | EmptyString => true
  | String c rest =>
    if is_space c
    then negb after_space && bool_decide (c = " "%char) && single_spaced true rest
    else single_spaced false rest
  end.

(** ** Sample data *)

Module Sample.

Local Open Scope string_scope.

(** A readability library that rates every text the same. *)
Definition rating (ease grade standard : Q) : Textstat := {|
  flesch_reading_ease := fun _ => ease;
  flesch_kincaid_grade := fun _ => grade;
  gunning_fog := fun _ => 12;
  smog_index := fun _ => 11;
  coleman_liau_index := fun _ => 10;
  automated_readability_index := fun _ => 13;
  dale_chall_readability_score := fun _ => 8;
  difficult_words := fun _ => 40;
  linsear_write_formula := fun _ => 9;
  text_standard := fun _ => standard
|}.

Definition plain_textstat : Textstat := rating 50 10 12.

(** [sep.join(words)] *)
Fixpoint join (sep : string) (words : list string) : string :=
  match words with
  | [] => ""
  | [x] => x
  | x :: rest => x ++ sep ++ join sep rest
  end.

(** One hundred short words, one of them a keyword. *)
Definition short_paragraph : string :=
  join " " ("we do not sell it" :: repeat "if it is so we" 19).

(** One thousand words, ten keyword matches, 3029 characters. *)
Definition short_worded_policy : string := join " " (repeat short_paragraph 10).

(** Ten keyword matches in 5000 characters. *)
Definition five_thousand_policy : string :=
  join " " (repeat ("we never sell any personal data " ++ join " " (repeat "and so on" 46) ++ " again") 10)
  ++ " this is the end now.".

(** A page that leaves 43 characters of text. *)
Definition stub_page : string := "Please enable JavaScript to view this page.".

Definition clock (platform : string) : string := "2025-01-01 00:00:00".

(** Every request raises. *)
Definition offline : World := {| page_text := fun _ => None; now := clock |}.

(** Every page has the same text. *)
Definition serving (text : string) : World :=
  {| page_text := fun _ => Some text; now := clock |}.

(** The metrics of a text of very short sentences and words. *)
Definition easy_metrics : option (gmap string Q) :=
  analyze_readability (rating 100 (-3) 0) (Some five_thousand_policy).

(** A page text with runs of spaces. *)
Definition spaced_title : string := "Privacy   Policy  of the site".

(** The analyzer after one pass in which every page has the text of
    [short_paragraph]. *)
Definition analyzed : Analyzer :=
  (analyze_all plain_textstat (serving short_paragraph) init).1.2.

End Sample.

(** * Properties

    ** Rounding *)

Section Rounding.

Context {ties : Ties}.

Lemma round_nearest_comp (q q' : Q) :
  q == q' -> round_nearest q = round_nearest q'.
Proof.
  intros E. unfold round_nearest.
  rewrite (Qfloor_comp _ _ E).
  assert (C : Qcompare (q - inject_Z (Qfloor q')) (1 # 2)
            = Qcompare (q' - inject_Z (Qfloor q')) (1 # 2)).
  { apply Qcompare_comp; [rewrite E|]; reflexivity. }
  rewrite C, (Qred_complete _ _ E). reflexivity.
Qed.

Lemma round_nearest_bounds (q : Q) :
  inject_Z (round_nearest q) - (1 # 2) <= q
  /\ q <= inject_Z (round_nearest q) + (1 # 2).
Proof.
  unfold round_nearest.
  pose proof (Qfloor_le q) as Hlo.
  pose proof (Qlt_floor q) as Hhi.
  rewrite inject_Z_plus in Hhi. change (inject_Z 1) with 1 in Hhi.
  destruct (Qcompare_spec (q - inject_Z (Qfloor q)) (1 # 2)) as [E|L|G].
  - destruct (ties_up (Qred q)).
    + rewrite inject_Z_plus. change (inject_Z 1) with 1. split; lra.
    + split; lra.
  - split; lra.
  - rewrite inject_Z_plus. change (inject_Z 1) with 1. split; lra.
Qed.

Lemma round_nearest_mono (q q' : Q) :
  q <= q' -> (round_nearest q <= round_nearest q')%Z.
Proof.
  intros L.
  destruct (Z_le_gt_dec (round_nearest q) (round_nearest q')) as [|G]; [assumption|].
  assert (S : (round_nearest q' + 1 <= round_nearest q)%Z) by lia.
  rewrite Zle_Qle, inject_Z_plus in S. change (inject_Z 1) with 1 in S.
  destruct (round_nearest_bounds q) as [A _].
  destruct (round_nearest_bounds q') as [_ B].
  assert (E : q == q') by lra.
  rewrite (round_nearest_comp _ _ E) in G. lia.
Qed.

Lemma round_nearest_inject_Z (z : Z) : round_nearest (inject_Z z) = z.
Proof.
  unfold round_nearest. rewrite Qfloor_Z.
  destruct (Qcompare_spec (inject_Z z - inject_Z z) (1 # 2)) as [E|L|G].
  - lra.
  - reflexivity.
  - lra.
Qed.

Lemma pow10_pos (n : nat) : 0 < pow10 n.
Proof.
  unfold pow10. change 0 with (inject_Z 0). rewrite <- Zlt_Qlt.
  apply Z.pow_pos_nonneg; lia.
Qed.

Lemma py_round_comp (x y : Q) (n : nat) : x == y -> py_round x n = py_round y n.
Proof.
  intros E. unfold py_round.
  rewrite (round_nearest_comp (x * pow10 n) (y * pow10 n)); [reflexivity|].
  rewrite E. reflexivity.
Qed.

Lemma py_round_mono (x y : Q) (n : nat) : x <= y -> py_round x n <= py_round y n.
Proof.
  intros L. unfold py_round.
  pose proof (pow10_pos n) as P.
  apply Qmult_le_compat_r.
  - rewrite <- Zle_Qle. apply round_nearest_mono.
    apply Qmult_le_compat_r; lra.
  - apply Qlt_le_weak, Qinv_lt_0_compat, P.
Qed.

Lemma py_round_grid (z : Z) (n : nat) :
  py_round (inject_Z z / pow10 n) n == inject_Z z / pow10 n.
Proof.
  unfold py_round.
  pose proof (pow10_pos n) as P.
  rewrite (round_nearest_comp _ (inject_Z z)).
  - rewrite round_nearest_inject_Z. reflexivity.
  - field. lra.
Qed.

Lemma py_round_error (x : Q) (n : nat) :
  py_round x n - (1 # 2) / pow10 n <= x /\ x <= py_round x n + (1 # 2) / pow10 n.
Proof.
  unfold py_round.
  pose proof (pow10_pos n) as P.
  destruct (round_nearest_bounds (x * pow10 n)) as [A B].
  set (r := inject_Z (round_nearest (x * pow10 n))) in *.
  split.
  - apply Qmult_le_r with (z := pow10 n); [exact P|].
    setoid_replace ((r / pow10 n - (1 # 2) / pow10 n) * pow10 n) with (r - (1 # 2)) using relation Qeq; [exact A|].
    field. lra.
  - apply Qmult_le_r with (z := pow10 n); [exact P|].
    setoid_replace ((r / pow10 n + (1 # 2) / pow10 n) * pow10 n) with (r + (1 # 2)) using relation Qeq; [exact B|].
    field. lra.
Qed.

(** A score rounded to three decimals is on the grid and near the value
    that was rounded. *)
Lemma py_round_near (x : Q) :
  (exists k : Z, py_round x 3 == inject_Z k / 1000)
  /\ py_round x 3 - rounding_distance <= x
  /\ x <= py_round x 3 + rounding_distance.
Proof.
  split; [eexists; unfold py_round; reflexivity|].
  destruct (py_round_error x 3) as [A B].
  change ((1 # 2) / pow10 3) with (1 # 2000) in A, B.
  unfold rounding_distance. split; lra.
Qed.

End Rounding.

(** ** The score curves *)

Lemma Qdiv_const (x : Q) (p : positive) : x / (Zpos p # 1) == x * (1 # p).
Proof. reflexivity. Qed.

(** Linear arithmetic, with divisions by a literal turned into products. *)
Ltac qlra := rewrite ?Qdiv_const; lra.

Section Scores.

Context {ties : Ties}.

Lemma mentions_per_1000_pos (c len : Z) :
  (0 < len)%Z ->
  mentions_per_1000 c len == inject_Z (5000 * c) / inject_Z len.
Proof.
  intros H. unfold mentions_per_1000.
  assert (L : 0 < inject_Z len) by (change 0 with (inject_Z 0); rewrite <- Zlt_Qlt; exact H).
  destruct (Qlt_le_dec 0 (inject_Z len / 5)) as [P|N].
  - rewrite inject_Z_mult. change (inject_Z 5000) with 5000. field. lra.
  - exfalso. apply (Qle_not_lt _ _ N).
    apply Qlt_shift_div_l; lra.
Qed.

Lemma mentions_per_1000_nonpos (c len : Z) :
  (len <= 0)%Z -> mentions_per_1000 c len = 0.
Proof.
  intros H. unfold mentions_per_1000.
  assert (L : inject_Z len <= 0) by (change 0 with (inject_Z 0); rewrite <- Zle_Qle; exact H).
  destruct (Qlt_le_dec 0 (inject_Z len / 5)) as [P|N]; [|reflexivity].
  exfalso. apply (Qlt_not_le _ _ P).
  apply Qle_shift_div_r; lra.
Qed.

Lemma mentions_per_1000_nonneg (c len : Z) :
  (0 <= c)%Z -> 0 <= mentions_per_1000 c len.
Proof.
  intros H. destruct (Z_lt_le_dec 0 len) as [P|N].
  - rewrite (mentions_per_1000_pos _ _ P).
    apply Qle_shift_div_l.
    + change 0 with (inject_Z 0). rewrite <- Zlt_Qlt. exact P.
    + rewrite Qmult_0_l. change 0 with (inject_Z 0). rewrite <- Zle_Qle. lia.
  - rewrite (mentions_per_1000_nonpos _ _ N). lra.
Qed.

Lemma third_score_density (c len : Z) :
  calculate_third_score c len
  == py_round (density_score (mentions_per_1000 c len)) 3.
Proof.
  unfold calculate_third_score.
  destruct (Z.eqb_spec len 0) as [->|_]; [|reflexivity].
  rewrite mentions_per_1000_nonpos by lia. reflexivity.
Qed.

Lemma density_score_low (d : Q) : d < 5 -> density_score d = d / 5.
Proof.
  intros H. unfold density_score.
  destruct (Qlt_le_dec d 5); [reflexivity|lra].
Qed.

Lemma density_score_band (d : Q) : 5 <= d -> d <= 15 -> density_score d = 1.
Proof.
  intros H1 H2. unfold density_score.
  destruct (Qlt_le_dec d 5); [lra|].
  destruct (Qle_bool d 15) eqn:E; [reflexivity|].
  apply Qle_bool_iff in H2. congruence.
Qed.

Lemma density_score_high (d : Q) :
  15 < d -> density_score d = py_max (5 # 10) (1 - (d - 15) / 20).
Proof.
  intros H. unfold density_score.
  destruct (Qlt_le_dec d 5); [lra|].
  destruct (Qle_bool d 15) eqn:E; [|reflexivity].
  apply Qle_bool_iff in E. lra.
Qed.

Lemma py_max_lower_l (a b : Q) : a <= py_max a b.
Proof. apply Q.le_max_l. Qed.

Lemma py_max_lower_r (a b : Q) : b <= py_max a b.
Proof. apply Q.le_max_r. Qed.

Lemma py_max_lub (a b c : Q) : a <= c -> b <= c -> py_max a b <= c.
Proof. apply Q.max_lub. Qed.

Lemma py_min_upper_l (a b : Q) : py_min a b <= a.
Proof. apply Q.le_min_l. Qed.

Lemma py_min_upper_r (a b : Q) : py_min a b <= b.
Proof. apply Q.le_min_r. Qed.

Lemma py_min_glb (a b c : Q) : c <= a -> c <= b -> c <= py_min a b.
Proof. apply Q.min_glb. Qed.

Lemma density_score_high_mono (d d' : Q) :
  15 < d -> d <= d' -> density_score d' <= density_score d.
Proof.
  intros H L.
  rewrite (density_score_high d), (density_score_high d') by lra.
  apply py_max_lub.
  - apply py_max_lower_l.
  - apply Qle_trans with (1 - (d - 15) / 20); [qlra | apply py_max_lower_r].
Qed.

Lemma density_score_bounds (d : Q) :
  0 <= d -> 0 <= density_score d /\ density_score d <= 1.
Proof.
  intros H. destruct (Qlt_le_dec d 5) as [L|G].
  - rewrite density_score_low by exact L. split; qlra.
  - destruct (Qlt_le_dec 15 d) as [L'|G'].
    + rewrite density_score_high by exact L'. split.
      * apply Qle_trans with (5 # 10); [lra | apply py_max_lower_l].
      * apply py_max_lub; qlra.
    + rewrite density_score_band by assumption. split; lra.
Qed.

Lemma py_round_3_0 : py_round 0 3 == 0.
Proof. reflexivity. Qed.

Lemma py_round_3_1 : py_round 1 3 == 1.
Proof. reflexivity. Qed.

Lemma py_round_3_half : py_round (5 # 10) 3 == 5 # 10.
Proof. reflexivity. Qed.

Lemma py_round_3_nonneg (x : Q) : 0 <= x -> 0 <= py_round x 3.
Proof.
  intros L. apply Qle_trans with (py_round 0 3).
  - rewrite py_round_3_0. lra.
  - apply py_round_mono, L.
Qed.

Lemma py_round_3_zero (x : Q) : x == 0 -> py_round x 3 == 0.
Proof. intros E. rewrite (py_round_comp _ _ 3 E). reflexivity. Qed.

Lemma py_round_3_unit (x : Q) : 0 <= x -> x <= 1 -> 0 <= py_round x 3 /\ py_round x 3 <= 1.
Proof.
  intros L U. split.
  - rewrite <- py_round_3_0. apply py_round_mono, L.
  - rewrite <- py_round_3_1. apply py_round_mono, U.
Qed.

Lemma third_score_bounds (c len : Z) :
  (0 <= c)%Z ->
  0 <= calculate_third_score c len /\ calculate_third_score c len <= 1.
Proof.
  intros H. rewrite third_score_density.
  destruct (density_score_bounds _ (mentions_per_1000_nonneg c len H)).
  apply py_round_3_unit; assumption.
Qed.

Lemma p6_score_bounds (r t : Q) :
  0 <= r <= 1 -> 0 <= t <= 1 ->
  0 <= calculate_p6_score r t /\ calculate_p6_score r t <= 1.
Proof.
  intros [] []. unfold calculate_p6_score. apply py_round_3_unit; lra.
Qed.

End Scores.

(** ** The readability sub-score *)

Ltac name_parts ease grade standard :=
  set (a := py_max 0 (py_min 100 ease)) in *;
  set (b := py_max 0 (1 - py_min grade 20 / 20)) in *;
  set (c := py_max 0 (1 - py_min standard 20 / 20)) in *;
  clearbody a b c.

Section ReadScore.

Context {ties : Ties}.

Variable m : gmap string Q.
Variables ease grade standard : Q.
Hypothesis Hease : m !! "flesch_reading_ease"%string = Some ease.
Hypothesis Hgrade : m !! "flesch_kincaid_grade"%string = Some grade.
Hypothesis Hstandard : m !! "text_standard"%string = Some standard.

Lemma falsy_dict_false : falsy_dict (Some m) = false.
Proof using Hease.
  unfold falsy_dict. apply bool_decide_eq_false. intros E.
  pose proof Hease as H. rewrite E, lookup_empty in H. discriminate H.
Qed.

Lemma calculate_read_score_eq :
  calculate_read_score (Some m)
  = Returns (py_round ((py_max 0 (py_min 100 ease) / 100
                        + py_max 0 (1 - py_min grade 20 / 20)
                        + py_max 0 (1 - py_min standard 20 / 20)) / 3) 3).
Proof using Hease Hgrade Hstandard.
  unfold calculate_read_score. rewrite falsy_dict_false.
  unfold getitem. rewrite Hease, Hgrade, Hstandard. reflexivity.
Qed.

Lemma read_score_nonneg :
  exists q, calculate_read_score (Some m) = Returns q /\ 0 <= q.
Proof using Hease Hgrade Hstandard.
  eexists. split; [apply calculate_read_score_eq|].
  apply py_round_3_nonneg.
  pose proof (py_max_lower_l 0 (py_min 100 ease)).
  pose proof (py_max_lower_l 0 (1 - py_min grade 20 / 20)).
  pose proof (py_max_lower_l 0 (1 - py_min standard 20 / 20)).
  name_parts ease grade standard. qlra.
Qed.

Lemma read_score_unit :
  0 <= grade -> 0 <= standard ->
  exists q, calculate_read_score (Some m) = Returns q /\ 0 <= q /\ q <= 1.
Proof using Hease Hgrade Hstandard.
  intros Hg Hs.
  eexists. split; [apply calculate_read_score_eq|].
  apply py_round_3_unit.
  - pose proof (py_max_lower_l 0 (py_min 100 ease)).
    pose proof (py_max_lower_l 0 (1 - py_min grade 20 / 20)).
    pose proof (py_max_lower_l 0 (1 - py_min standard 20 / 20)).
    name_parts ease grade standard. qlra.
  - assert (A : py_max 0 (py_min 100 ease) <= 100).
    { apply py_max_lub; [lra | apply py_min_upper_l]. }
    assert (B : py_max 0 (1 - py_min grade 20 / 20) <= 1).
    { apply py_max_lub; [lra|].
      pose proof (py_min_glb grade 20 0 Hg ltac:(lra)). qlra. }
    assert (C : py_max 0 (1 - py_min standard 20 / 20) <= 1).
    { apply py_max_lub; [lra|].
      pose proof (py_min_glb standard 20 0 Hs ltac:(lra)). qlra. }
    name_parts ease grade standard. qlra.
Qed.

Lemma read_score_worst :
  ease <= 0 -> 20 <= grade -> 20 <= standard ->
  exists q, calculate_read_score (Some m) = Returns q /\ q == 0.
Proof using Hease Hgrade Hstandard.
  intros He Hg Hs.
  eexists. split; [apply calculate_read_score_eq|].
  apply py_round_3_zero.
  pose proof (py_max_lower_l 0 (py_min 100 ease)).
  pose proof (py_max_lower_l 0 (1 - py_min grade 20 / 20)).
  pose proof (py_max_lower_l 0 (1 - py_min standard 20 / 20)).
  assert (A : py_max 0 (py_min 100 ease) <= 0).
  { apply py_max_lub; [lra|].
    apply Qle_trans with ease; [apply py_min_upper_r | exact He]. }
  assert (B : py_max 0 (1 - py_min grade 20 / 20) <= 0).
  { apply py_max_lub; [lra|].
    pose proof (py_min_glb grade 20 20 Hg ltac:(lra)). qlra. }
  assert (C : py_max 0 (1 - py_min standard 20 / 20) <= 0).
  { apply py_max_lub; [lra|].
    pose proof (py_min_glb standard 20 20 Hs ltac:(lra)). qlra. }
  name_parts ease grade standard. qlra.
Qed.

End ReadScore.

(** C1. Every sub-score and the combined score should lie in [0,1], also
    for negative grade levels. The code clamps a grade level from above only
    ([min(grade, 20)]), so a negative grade gives a normalised term above 1:
    for an ease of 100, a Flesch-Kincaid grade of -3 and a text standard of 0
    the READ sub-score is 1.05, and the combined score with a THIRD sub-score
    of 1.0 is 1.025. *)
Theorem read_score_exceeds_one {ties : Ties} :
  calculate_read_score Sample.easy_metrics = Returns (1050 # 1000)
  /\ calculate_p6_score (1050 # 1000) 1 == 1025 # 1000
  /\ 1 < 1050 # 1000 /\ 1 < 1025 # 1000.
Proof.
  split; [vm_compute; reflexivity|].
  split; [vm_compute; reflexivity|].
  split; reflexivity.
Qed.

(** C10. For [None] and for the empty dict [calculate_read_score] returns
    0.0, neither raising nor returning [None]; metrics of the worst
    readability (ease at most 0, both grade levels at least 20) also give
    0.0, so the two cases cannot be told apart from the returned value. *)
Theorem read_score_of_absent_metrics {ties : Ties} :
  calculate_read_score None = Returns 0
  /\ calculate_read_score (Some ∅) = Returns 0
  /\ forall (m : gmap string Q) (ease grade standard : Q),
       m !! "flesch_reading_ease"%string = Some ease ->
       m !! "flesch_kincaid_grade"%string = Some grade ->
       m !! "text_standard"%string = Some standard ->
       ease <= 0 -> 20 <= grade -> 20 <= standard ->
       exists q, calculate_read_score (Some m) = Returns q /\ q == 0.
Proof.
  split; [reflexivity|]. split; [reflexivity|].
  intros m ease grade standard. apply read_score_worst.
Qed.

Lemma read_score_of_absent_metrics_witness :
  exists q,
    calculate_read_score (Some (metrics_of (Sample.rating 0 20 20) ""))
    = Returns q /\ q == 0.
Proof.
  destruct read_score_of_absent_metrics as (_ & _ & H).
  apply (H (metrics_of (Sample.rating 0 20 20) "") 0 20 20);
    solve [reflexivity | discriminate].
Defined.

(** ** The disclosure sub-score as a function of density *)

(** C2, as stated, fails: the returned score is rounded to three decimals,
    so two texts of one mention, 30100 and 30000 characters long, have
    different densities below 5 and the same score 0.033, which is not
    density / 5 either. *)
Lemma third_score_not_strictly_increasing :
  mentions_per_1000 1 30100 < mentions_per_1000 1 30000
  /\ mentions_per_1000 1 30000 < 5
  /\ calculate_third_score 1 30100 == calculate_third_score 1 30000
  /\ ~ calculate_third_score 1 30000 == mentions_per_1000 1 30000 / 5.
Proof.
  split; [reflexivity|]. split; [reflexivity|]. split; [reflexivity|].
  vm_compute. discriminate.
Qed.

(** C2, amended. With [d] the density the code computes, the score is 1.0
    for [d] in [5,15]; below 5 it is a multiple of 1/1000 nearest to [d / 5]
    and above 15 one nearest to [max(0.5, 1 - (d - 15) / 20)], either of
    the two neighbours where that value is halfway between them, and never
    under 0.5 above 15; it is non-decreasing in the density below 5 and
    non-increasing above 15. *)
Theorem third_score_by_density {ties : Ties} (c len c' len' : Z) :
  let d := mentions_per_1000 c len in
  let d' := mentions_per_1000 c' len' in
  (5 <= d -> d <= 15 -> calculate_third_score c len == 1)
  /\ (d < 5 ->
      (exists k : Z, calculate_third_score c len == inject_Z k / 1000)
      /\ calculate_third_score c len - rounding_distance <= d / 5
      /\ d / 5 <= calculate_third_score c len + rounding_distance)
  /\ (15 < d ->
      ((exists k : Z, calculate_third_score c len == inject_Z k / 1000)
       /\ calculate_third_score c len - rounding_distance
          <= py_max (5 # 10) (1 - (d - 15) / 20)
       /\ py_max (5 # 10) (1 - (d - 15) / 20)
          <= calculate_third_score c len + rounding_distance)
      /\ 5 # 10 <= calculate_third_score c len)
  /\ (d <= d' -> d' < 5 ->
      calculate_third_score c len <= calculate_third_score c' len')
  /\ (15 < d -> d <= d' ->
      calculate_third_score c' len' <= calculate_third_score c len).
Proof.
  intros d d'.
  assert (E : calculate_third_score c len == py_round (density_score d) 3)
    by apply third_score_density.
  assert (E' : calculate_third_score c' len' == py_round (density_score d') 3)
    by apply third_score_density.
  split; [|split; [|split; [|split]]].
  - intros L U. rewrite E, density_score_band by assumption. reflexivity.
  - intros L. rewrite density_score_low in E by assumption.
    destruct (py_round_near (d / 5)) as ((k & K) & A & B).
    split; [exists k; rewrite E; exact K|].
    rewrite E. split; assumption.
  - intros L. rewrite density_score_high in E by assumption.
    destruct (py_round_near (py_max (5 # 10) (1 - (d - 15) / 20)))
      as ((k & K) & A & B).
    split.
    { split; [exists k; rewrite E; exact K|].
      rewrite E. split; assumption. }
    rewrite E. apply Qle_trans with (py_round (5 # 10) 3).
    + rewrite py_round_3_half. lra.
    + apply py_round_mono, py_max_lower_l.
  - intros L U. rewrite E, E'. apply py_round_mono.
    rewrite !density_score_low by lra. qlra.
  - intros L U. rewrite E, E'.
    apply py_round_mono, density_score_high_mono; assumption.
Qed.

Lemma third_score_by_density_witness :
  calculate_third_score 10 5000 == 1
  /\ calculate_third_score 1 30000 - rounding_distance
     <= mentions_per_1000 1 30000 / 5
  /\ 5 # 10 <= calculate_third_score 10 2029
  /\ calculate_third_score 1 30100 <= calculate_third_score 1 30000
  /\ calculate_third_score 10 2029 <= calculate_third_score 10 3029.
Proof.
  pose proof (third_score_by_density 10 5000 0 1) as (Band & _).
  pose proof (third_score_by_density 1 30000 0 1) as (_ & Low & _).
  pose proof (third_score_by_density 10 2029 0 1) as (_ & _ & High & _).
  pose proof (third_score_by_density 1 30100 1 30000) as (_ & _ & _ & Up & _).
  pose proof (third_score_by_density 10 3029 10 2029) as (_ & _ & _ & _ & Down).
  split; [|split; [|split; [|split]]].
  - apply Band; vm_compute; discriminate.
  - apply Low. reflexivity.
  - apply High. reflexivity.
  - apply Up; [vm_compute; discriminate | reflexivity].
  - apply Down; [reflexivity | vm_compute; discriminate].
Defined.

(** ** The combined score on doubles *)

Section Doubles.

Import PrimFloat.
#[local] Set Warnings "-inexact-float".

(** Where the exact value is halfway, the double that the code rounds falls
    on either side: up for 63 mentions in 20000 characters (0.9625) and for
    sub-scores 0.0 and 0.925 (0.4625), down for sub-scores 0.4 and 0.599
    (0.4995). *)
Lemma doubles_fall_both_ways :
  Binary64.calculate_third_score 63 20000 = 0.963%float
  /\ Binary64.calculate_p6_score 0 0.925 = 0.463%float
  /\ Binary64.calculate_p6_score 0.4 0.599 = 0.499%float.
Proof. repeat split. Qed.


End Doubles.

(** ** The metrics record *)

Section Readability.

Variable textstat : Textstat.

Lemma metrics_of_dom (text : string) : dom (metrics_of textstat text) = metric_names.
Proof.
  unfold metrics_of, metric_names.
  rewrite !dom_insert_L, dom_empty_L. simpl. set_solver.
Qed.

Lemma metrics_of_ease (text : string) :
  metrics_of textstat text !! "flesch_reading_ease"%string
  = Some (flesch_reading_ease textstat text).
Proof. unfold metrics_of. by simplify_map_eq. Qed.

Lemma metrics_of_grade (text : string) :
  metrics_of textstat text !! "flesch_kincaid_grade"%string
  = Some (flesch_kincaid_grade textstat text).
Proof. unfold metrics_of. by simplify_map_eq. Qed.

Lemma metrics_of_standard (text : string) :
  metrics_of textstat text !! "text_standard"%string
  = Some (text_standard textstat text).
Proof. unfold metrics_of. by simplify_map_eq. Qed.

Lemma metrics_of_fog (text : string) :
  metrics_of textstat text !! "gunning_fog"%string
  = Some (gunning_fog textstat text).
Proof. unfold metrics_of. by simplify_map_eq. Qed.

Lemma falsy_str_false (text : string) :
  (100 <= String.length text)%nat -> falsy_str (Some text) = false.
Proof.
  intros H. unfold falsy_str. apply bool_decide_eq_false.
  intros ->. simpl in H. lia.
Qed.

Lemma analyze_readability_long (text : string) :
  (100 <= String.length text)%nat ->
  analyze_readability textstat (Some text) = Some (metrics_of textstat text).
Proof.
  intros H. unfold analyze_readability.
  rewrite falsy_str_false by exact H.
  apply Nat.ltb_ge in H. rewrite H. reflexivity.
Qed.

Lemma analyze_readability_short (text : string) :
  (String.length text < 100)%nat ->
  analyze_readability textstat (Some text) = None.
Proof.
  intros H. unfold analyze_readability.
  destruct (falsy_str (Some text)); [reflexivity|].
  apply Nat.ltb_lt in H. rewrite H. reflexivity.
Qed.

End Readability.

(** C8. [analyze_readability] returns no record exactly when the text is
    absent or shorter than 100 characters; a record it returns has exactly
    the ten named fields, each of them defined. *)
Theorem analyze_readability_all_or_nothing
    (textstat : Textstat) (text : option string) :
  (analyze_readability textstat text = None
   <-> match text with
       | None => True
       | Some s => (String.length s < 100)%nat
       end)
  /\ forall m : gmap string Q,
       analyze_readability textstat text = Some m ->
       dom m = metric_names
       /\ forall key : string, key ∈ metric_names -> is_Some (m !! key).
Proof.
  split.
  - destruct text as [s|]; [|split; reflexivity || trivial].
    destruct (Nat.lt_ge_cases (String.length s) 100) as [L|G].
    + rewrite analyze_readability_short by exact L. tauto.
    + rewrite analyze_readability_long by exact G.
      split; [discriminate | lia].
  - intros m H.
    destruct text as [s|]; [|discriminate H].
    destruct (Nat.lt_ge_cases (String.length s) 100) as [L|G].
    + rewrite analyze_readability_short in H by exact L. discriminate H.
    + rewrite analyze_readability_long in H by exact G.
      injection H as <-.
      split; [apply metrics_of_dom|].
      intros key Hk. apply elem_of_dom. rewrite metrics_of_dom. exact Hk.
Qed.

Lemma analyze_readability_all_or_nothing_witness :
  analyze_readability Sample.plain_textstat (Some Sample.stub_page) = None
  /\ is_Some (metrics_of Sample.plain_textstat Sample.five_thousand_policy
              !! "difficult_words"%string).
Proof.
  pose proof (analyze_readability_all_or_nothing
                Sample.plain_textstat (Some Sample.stub_page)) as (Short & _).
  pose proof (analyze_readability_all_or_nothing
                Sample.plain_textstat (Some Sample.five_thousand_policy))
    as (_ & Full).
  split.
  - apply Short. apply Nat.ltb_lt. vm_compute. reflexivity.
  - apply (Full _ (analyze_readability_long
                     Sample.plain_textstat Sample.five_thousand_policy
                     ltac:(apply Nat.leb_le; vm_compute; reflexivity))).
    unfold metric_names. set_solver.
Defined.

(** ** One document *)

Ltac run_steps :=
  unfold mbind, run_bind, mret, run_ret, print, lift; cbn [app].

Section Platform.

Context {ties : Ties}.

Variable textstat : Textstat.
Variable w : World.
Variables platform_name url : string.

Lemma extract_text_from_url_value :
  (extract_text_from_url w url).1 = Returns (extracted w url).
Proof.
  unfold extract_text_from_url, extracted.
  destruct (page_text w url); reflexivity.
Qed.

Lemma extract_text_from_url_some (text : string) :
  extracted w url = Some text ->
  extract_text_from_url w url = (Returns (Some text), []).
Proof.
  unfold extract_text_from_url, extracted.
  destruct (page_text w url); [|discriminate].
  simpl. intros [= <-]. reflexivity.
Qed.

Lemma extract_text_from_url_none :
  page_text w url = None ->
  extract_text_from_url w url = (Returns None, [ErrorFetching url]).
Proof. unfold extract_text_from_url. intros ->. reflexivity. Qed.

Lemma analyze_platform_fetch_failed :
  page_text w url = None ->
  analyze_platform textstat w platform_name url
  = (Returns None,
     [Analyzing platform_name url; ErrorFetching url;
      FailedToExtract platform_name]).
Proof.
  intros H. unfold analyze_platform.
  rewrite (extract_text_from_url_none H). reflexivity.
Qed.

Lemma analyze_platform_empty :
  extracted w url = Some ""%string ->
  analyze_platform textstat w platform_name url
  = (Returns None,
     [Analyzing platform_name url; FailedToExtract platform_name]).
Proof.
  intros H. unfold analyze_platform.
  rewrite (extract_text_from_url_some _ H). reflexivity.
Qed.

Lemma analyze_platform_short (text : string) :
  extracted w url = Some text ->
  text <> ""%string ->
  (String.length text < 100)%nat ->
  analyze_platform textstat w platform_name url
  = (Returns None,
     [Analyzing platform_name url;
      Extracted (length (split text)) (String.length text);
      FailedReadability]).
Proof.
  intros H Hne Hlen. unfold analyze_platform.
  rewrite (extract_text_from_url_some _ H). run_steps.
  assert (F : falsy_str (Some text) = false).
  { unfold falsy_str. apply bool_decide_eq_false. exact Hne. }
  rewrite F. rewrite analyze_readability_short by exact Hlen.
  reflexivity.
Qed.

Lemma analyze_platform_long (text : string) :
  extracted w url = Some text ->
  (100 <= String.length text)%nat ->
  exists read_score out,
    calculate_read_score (Some (metrics_of textstat text)) = Returns read_score
    /\ analyze_platform textstat w platform_name url
       = (Returns (Some (entry_of textstat w platform_name url text read_score)),
          out).
Proof.
  intros H Hlen.
  pose proof (calculate_read_score_eq _ _ _ _
                (metrics_of_ease textstat text)
                (metrics_of_grade textstat text)
                (metrics_of_standard textstat text)) as R.
  eexists. eexists. split; [exact R|].
  unfold analyze_platform.
  rewrite (extract_text_from_url_some _ H). run_steps.
  rewrite falsy_str_false by exact Hlen.
  rewrite analyze_readability_long by exact Hlen.
  rewrite (falsy_dict_false _ _ (metrics_of_ease textstat text)).
  unfold getitem.
  rewrite metrics_of_ease, metrics_of_grade, metrics_of_standard, metrics_of_fog.
  rewrite R. reflexivity.
Qed.

(** The ways a document is dropped, and the one way it is kept. *)
Lemma analyze_platform_cases :
  (page_text w url = None
   /\ (analyze_platform textstat w platform_name url).1 = Returns None)
  \/ (exists text,
        extracted w url = Some text /\ (String.length text < 100)%nat
        /\ (analyze_platform textstat w platform_name url).1 = Returns None)
  \/ (exists text read_score,
        extracted w url = Some text /\ (100 <= String.length text)%nat
        /\ (analyze_platform textstat w platform_name url).1
           = Returns (Some (entry_of textstat w platform_name url text read_score))).
Proof.
  destruct (page_text w url) as [raw|] eqn:P.
  - right.
    assert (E : extracted w url = Some (re_sub_spaces false raw)).
    { unfold extracted. rewrite P. reflexivity. }
    destruct (Nat.lt_ge_cases (String.length (re_sub_spaces false raw)) 100)
      as [L|G].
    + left. eexists. split; [exact E|]. split; [exact L|].
      destruct (decide (re_sub_spaces false raw = ""%string)) as [Z|NZ].
      * rewrite Z in E. rewrite (analyze_platform_empty E). reflexivity.
      * rewrite (analyze_platform_short _ E NZ L). reflexivity.
    + right. destruct (analyze_platform_long _ E G) as (r & out & _ & A).
      exists (re_sub_spaces false raw), r. rewrite A. auto.
  - left. split; [reflexivity|].
    rewrite (analyze_platform_fetch_failed P). reflexivity.
Qed.

Lemma analyze_platform_returns :
  exists v, (analyze_platform textstat w platform_name url).1 = Returns v.
Proof.
  destruct analyze_platform_cases as [[_ H]|[(t & _ & _ & H)|(t & r & _ & _ & H)]];
    rewrite H; eauto.
Qed.

End Platform.

(** ** The batch *)

Section BatchRun.

Context {ties : Ties}.

Variable textstat : Textstat.
Variable w : World.

Lemma batch_entries_cons (platform url : string) (rest : list (string * string)) :
  batch_entries textstat w ((platform, url) :: rest)
  = match (analyze_platform textstat w platform url).1 with
    | Returns (Some r) => r :: batch_entries textstat w rest
    | _ => batch_entries textstat w rest
    end.
Proof.
  unfold batch_entries. cbn [omap list_omap fst snd].
  destruct (analyze_platform textstat w platform url).1 as [[r|]|e]; reflexivity.
Qed.

Lemma analyze_items_spec (items : list (string * string)) (self : Analyzer) :
  analyze_items textstat w items self
  = (Returns tt,
     {| policies := policies self;
        results := results self ++ batch_entries textstat w items |},
     batch_output textstat w items).
Proof.
  revert self. induction items as [|[platform url] rest IH]; intros self.
  - destruct self as [p r]. cbn. rewrite app_nil_r. reflexivity.
  - cbn [analyze_items]. rewrite batch_entries_cons.
    unfold batch_output. cbn [map concat fst snd].
    destruct (analyze_platform_returns textstat w platform url) as [v Hv].
    destruct (analyze_platform textstat w platform url) as [o out].
    cbn [fst snd] in *. subst o.
    rewrite IH. destruct v as [r|]; cbn [append_result policies results].
    + rewrite <- app_assoc. reflexivity.
    + reflexivity.
Qed.

Lemma analyze_all_spec (self : Analyzer) :
  analyze_all textstat w self
  = (Returns (results self ++ batch_entries textstat w (policies self)),
     {| policies := policies self;
        results := results self ++ batch_entries textstat w (policies self) |},
     AnalysisBanner :: batch_output textstat w (policies self)).
Proof. unfold analyze_all. rewrite analyze_items_spec. reflexivity. Qed.

(** Every document is dropped at the fetch, dropped for its length, or
    kept. *)
Lemma batch_entries_length (items : list (string * string)) :
  (length (batch_entries textstat w items)
   + tally (fetch_failed w) items + tally (text_too_short w) items
   = length items)%nat.
Proof.
  induction items as [|[platform url] rest IH]; [reflexivity|].
  rewrite batch_entries_cons. unfold tally in *.
  cbn [List.filter length]. unfold fetch_failed at 1, text_too_short at 1.
  cbn [fst snd].
  destruct (analyze_platform_cases textstat w platform url)
    as [[P H]|[(t & E & L & H)|(t & r & E & G & H)]]; rewrite H.
  - assert (X : extracted w url = None) by (unfold extracted; rewrite P; reflexivity).
    rewrite X. rewrite bool_decide_eq_true_2 by exact P.
    cbn [length]. lia.
  - assert (P : page_text w url <> None).
    { intros P. unfold extracted in E. rewrite P in E. discriminate E. }
    rewrite E. rewrite bool_decide_eq_false_2 by exact P.
    apply Nat.ltb_lt in L. rewrite L. cbn [length]. lia.
  - assert (P : page_text w url <> None).
    { intros P. unfold extracted in E. rewrite P in E. discriminate E. }
    rewrite E. rewrite bool_decide_eq_false_2 by exact P.
    apply Nat.ltb_ge in G. rewrite G. cbn [length]. lia.
Qed.

End BatchRun.

(** ** The whole run *)

Section WholeRun.

Context {ties : Ties}.

Variable textstat : Textstat.
Variable w : World.

Lemma generate_report_empty (self : Analyzer) :
  results self = [] -> generate_report self = (Returns None, [NoResultsToReport]).
Proof. unfold generate_report. intros ->. reflexivity. Qed.

Lemma save_results_empty (self : Analyzer) (filename : string) :
  results self = [] -> save_results self filename = (Returns tt, [NoResultsToSave]).
Proof. unfold save_results. intros ->. reflexivity. Qed.

Lemma generate_report_returns (self : Analyzer) :
  exists v out, generate_report self = (Returns v, out).
Proof. unfold generate_report. destruct (results self); eauto. Qed.

Lemma save_results_returns (self : Analyzer) (filename : string) :
  exists out, save_results self filename = (Returns tt, out).
Proof. unfold save_results. destruct (results self); eauto. Qed.

Lemma main_returns : (main textstat w).1.1 = Returns tt.
Proof.
  unfold main. rewrite analyze_all_spec.
  set (analyzer := {| policies := _; results := _ |}).
  destruct (generate_report_returns analyzer) as (v & o1 & ->).
  destruct (save_results_returns analyzer "privacy_policy_analysis.csv")
    as (o2 & E).
  run_steps. rewrite E. reflexivity.
Qed.

Lemma main_without_entries :
  batch_entries textstat w (policies init) = [] ->
  main textstat w
  = (Returns tt, init,
     AnalysisBanner :: batch_output textstat w (policies init)
     ++ [NoResultsToReport; NoResultsToSave; AnalysisComplete]).
Proof.
  intros E. unfold main. rewrite analyze_all_spec. rewrite E.
  reflexivity.
Qed.

End WholeRun.

Lemma serving_extracted (text url : string) :
  re_sub_spaces false text = text ->
  extracted (Sample.serving text) url = Some text.
Proof. unfold extracted. cbn. intros ->. reflexivity. Qed.

Lemma offline_entries {ties : Ties} (textstat : Textstat) (items : list (string * string)) :
  batch_entries textstat Sample.offline items = [].
Proof.
  induction items as [|[platform url] rest IH]; [reflexivity|].
  rewrite batch_entries_cons.
  rewrite (analyze_platform_fetch_failed textstat Sample.offline platform url eq_refl).
  exact IH.
Qed.

(** ** Density from the character count *)

Lemma ten_mentions_density (len : Z) :
  (0 < len)%Z ->
  mentions_per_1000 10 len == 50000 / inject_Z len
  /\ (mentions_per_1000 10 len == 10 <-> len = 5000%Z).
Proof.
  intros P.
  assert (L : 0 < inject_Z len)
    by (change 0 with (inject_Z 0); rewrite <- Zlt_Qlt; exact P).
  rewrite (mentions_per_1000_pos 10 len P).
  change (inject_Z (5000 * 10)) with 50000.
  split; [reflexivity|]. split.
  - intros E.
    assert (M : inject_Z 50000 == inject_Z (10 * len)).
    { rewrite inject_Z_mult. change (inject_Z 50000) with 50000.
      change (inject_Z 10) with 10.
      rewrite <- E. field.
      apply Qnot_eq_sym, Qlt_not_eq, L. }
    unfold Qeq in M. cbn [Qnum Qden inject_Z] in M. lia.
  - intros ->. reflexivity.
Qed.

Lemma ten_mentions_band {ties : Ties} (len : Z) :
  (3334 <= len <= 10000)%Z -> calculate_third_score 10 len == 1.
Proof.
  intros [A B].
  assert (P : (0 < len)%Z) by lia.
  assert (L : 0 < inject_Z len)
    by (change 0 with (inject_Z 0); rewrite <- Zlt_Qlt; exact P).
  rewrite third_score_density.
  assert (D : 5 <= mentions_per_1000 10 len /\ mentions_per_1000 10 len <= 15).
  { rewrite (mentions_per_1000_pos 10 len P).
    change (inject_Z (5000 * 10)) with 50000.
    rewrite Zle_Qle in A, B.
    change (inject_Z 3334) with 3334 in A.
    change (inject_Z 10000) with 10000 in B.
    split.
    - apply Qle_shift_div_l; [exact L | lra].
    - apply Qle_shift_div_r; [exact L | lra]. }
  destruct D as [D1 D2].
  rewrite density_score_band by assumption. reflexivity.
Qed.

(** C4, as stated, fails: a text of exactly 1000 words and exactly 10
    keyword matches that is 3029 characters long has a density of
    50000/3029 (about 16.5), not 10, and a THIRD sub-score of 0.925. *)
Lemma thousand_words_density_not_ten :
  exists r out,
    analyze_platform Sample.plain_textstat
      (Sample.serving Sample.short_worded_policy)
      "Proton" "https://proton.me/legal/privacy"
    = (Returns (Some r), out)
    /\ Word_Count r = 1000%nat
    /\ Third_Party_Mentions r = 10%Z
    /\ Character_Count r = 3029%nat
    /\ ~ mentions_per_1000 (Third_Party_Mentions r)
           (Z.of_nat (Character_Count r)) == 10
    /\ THIRD_Score r == 925 # 1000.
Proof.
  destruct (analyze_platform_long Sample.plain_textstat
              (Sample.serving Sample.short_worded_policy)
              "Proton" "https://proton.me/legal/privacy"
              Sample.short_worded_policy)
    as (read_score & out & _ & A).
  - apply serving_extracted. vm_compute. reflexivity.
  - apply Nat.leb_le. vm_compute. reflexivity.
  - eexists. exists out. split; [exact A|].
    split; [vm_compute; reflexivity|].
    split; [vm_compute; reflexivity|].
    split; [vm_compute; reflexivity|].
    split; [vm_compute; discriminate|].
    vm_compute. reflexivity.
Qed.

(** C4, amended. For a text of at least 100 characters with exactly 10
    keyword matches, the density is 50000 divided by the character count,
    whatever the exact word count; it is 10 exactly when the text has 5000
    characters (1000 words of five characters, as the code estimates them),
    and the THIRD sub-score of the entry is 1.0 for every character count
    from 3334 to 10000. *)
Theorem third_score_of_ten_mentions {ties : Ties}
    (textstat : Textstat) (w : World) (platform_name url text : string) :
  extracted w url = Some text ->
  (100 <= String.length text)%nat ->
  analyze_third_party_mentions (Some text) = 10%Z ->
  let len := Z.of_nat (String.length text) in
  exists r out,
    analyze_platform textstat w platform_name url = (Returns (Some r), out)
    /\ Third_Party_Mentions r = 10%Z
    /\ Character_Count r = String.length text
    /\ THIRD_Score r = calculate_third_score 10 len
    /\ mentions_per_1000 10 len == 50000 / inject_Z len
    /\ (mentions_per_1000 10 len == 10 <-> String.length text = 5000%nat)
    /\ ((3334 <= len <= 10000)%Z -> THIRD_Score r == 1).
Proof.
  intros E G T len.
  destruct (analyze_platform_long textstat w platform_name url text E G)
    as (read_score & out & _ & A).
  assert (P : (0 < len)%Z) by (subst len; lia).
  destruct (ten_mentions_density len P) as [D1 D2].
  eexists. exists out. split; [exact A|].
  unfold entry_of. cbn [Third_Party_Mentions Character_Count THIRD_Score].
  rewrite T. fold len.
  split; [reflexivity|]. split; [reflexivity|]. split; [reflexivity|].
  split; [exact D1|]. split.
  - rewrite D2. subst len. lia.
  - apply ten_mentions_band.
Qed.

Lemma third_score_of_ten_mentions_witness :
  exists r out,
    analyze_platform Sample.plain_textstat
      (Sample.serving Sample.five_thousand_policy)
      "Proton" "https://proton.me/legal/privacy"
    = (Returns (Some r), out)
    /\ Third_Party_Mentions r = 10%Z
    /\ THIRD_Score r == 1.
Proof.
  destruct (third_score_of_ten_mentions Sample.plain_textstat
              (Sample.serving Sample.five_thousand_policy)
              "Proton" "https://proton.me/legal/privacy"
              Sample.five_thousand_policy)
    as (r & out & A & T & _ & _ & _ & _ & B).
  - apply serving_extracted. vm_compute. reflexivity.
  - apply Nat.leb_le. vm_compute. reflexivity.
  - vm_compute. reflexivity.
  - exists r, out. split; [exact A|]. split; [exact T|].
    apply B. vm_compute. split; discriminate.
Defined.

(** ** Texts too short to analyse *)

(** C5, as stated, fails: the code has no error for a short text. An empty
    text and a text of 43 characters are returned by
    [extract_text_from_url] as ordinary values, with nothing printed. *)
Lemma short_text_is_returned :
  extract_text_from_url (Sample.serving "") "https://proton.me/legal/privacy"
  = (Returns (Some ""%string), [])
  /\ extract_text_from_url (Sample.serving Sample.stub_page)
       "https://proton.me/legal/privacy"
     = (Returns (Some Sample.stub_page), [])
  /\ (String.length Sample.stub_page < 100)%nat.
Proof.
  split; [reflexivity|]. split; [reflexivity|].
  apply Nat.ltb_lt. reflexivity.
Qed.

(** C5, amended. A text that is empty or shorter than 100 characters raises
    nothing: [extract_text_from_url] returns it, [analyze_readability]
    returns [None] for it, and [analyze_platform] prints one line (that the
    extraction failed, for the empty text; that the readability analysis
    failed, otherwise) and returns [None]. *)
Theorem short_text_yields_none {ties : Ties}
    (textstat : Textstat) (w : World) (platform_name url text : string) :
  extracted w url = Some text ->
  (String.length text < 100)%nat ->
  extract_text_from_url w url = (Returns (Some text), [])
  /\ analyze_readability textstat (Some text) = None
  /\ analyze_platform textstat w platform_name url
     = (Returns None,
        Analyzing platform_name url
        :: (if bool_decide (text = ""%string)
            then [FailedToExtract platform_name]
            else [Extracted (length (split text)) (String.length text);
                  FailedReadability])).
Proof.
  intros E L.
  split; [apply extract_text_from_url_some, E|].
  split; [apply analyze_readability_short, L|].
  destruct (decide (text = ""%string)) as [Z|NZ].
  - rewrite bool_decide_eq_true_2 by exact Z. subst text.
    apply analyze_platform_empty, E.
  - rewrite bool_decide_eq_false_2 by exact NZ.
    apply analyze_platform_short; assumption.
Qed.

Lemma short_text_yields_none_witness :
  analyze_platform Sample.plain_textstat (Sample.serving Sample.stub_page)
    "Proton" "https://proton.me/legal/privacy"
  = (Returns None,
     [Analyzing "Proton" "https://proton.me/legal/privacy";
      Extracted 7 43; FailedReadability]).
Proof.
  destruct (short_text_yields_none Sample.plain_textstat
              (Sample.serving Sample.stub_page)
              "Proton" "https://proton.me/legal/privacy" Sample.stub_page)
    as (_ & _ & H).
  - reflexivity.
  - apply Nat.ltb_lt. reflexivity.
  - exact H.
Defined.

(** ** Entries of a batch *)

(** C6, as stated, fails: with four documents that are all fetched (none
    fails at the fetch) and all 43 characters long, the results list is
    empty, not of four entries. *)
Lemma fetched_stub_pages_leave_no_entry :
  length (policies init) = 4%nat
  /\ tally (fetch_failed (Sample.serving Sample.stub_page)) (policies init)
     = 0%nat
  /\ (analyze_all Sample.plain_textstat (Sample.serving Sample.stub_page)
        init).1.1
     = Returns [].
Proof.
  split; [reflexivity|]. split; [reflexivity|].
  vm_compute. reflexivity.
Qed.

(** C6, amended. [analyze_all] raises nothing, and of the N documents of a
    batch of which M fail at the fetch and K are fetched with a text that is
    empty or shorter than 100 characters, it adds exactly N - M - K entries
    to the results list it started with. *)
Theorem analyze_all_entry_count {ties : Ties}
    (textstat : Textstat) (w : World) (self : Analyzer) :
  exists (self' : Analyzer) (out : list message),
    analyze_all textstat w self = (Returns (results self'), self', out)
    /\ (length (results self')
        + tally (fetch_failed w) (policies self)
        + tally (text_too_short w) (policies self)
        = length (results self) + length (policies self))%nat.
Proof.
  exists {| policies := policies self;
            results := results self
                       ++ batch_entries textstat w (policies self) |}.
  eexists. split; [rewrite (analyze_all_spec textstat w self); reflexivity|].
  cbn [results]. rewrite length_app.
  pose proof (batch_entries_length textstat w (policies self)). lia.
Qed.

(** ** A run without a single entry *)

(** C7, as stated, fails: when every fetch fails, no document succeeds, and
    [main] returns as it does after a run in which every document
    succeeded; the output ends with the line that the analysis is
    complete. *)
Lemma run_without_success_ends_normally :
  batch_entries Sample.plain_textstat Sample.offline (policies init) = []
  /\ length (batch_entries Sample.plain_textstat
               (Sample.serving Sample.five_thousand_policy) (policies init))
     = 4%nat
  /\ (main Sample.plain_textstat Sample.offline).1.1 = Returns tt
  /\ (main Sample.plain_textstat Sample.offline).1.1
     = (main Sample.plain_textstat
          (Sample.serving Sample.five_thousand_policy)).1.1
  /\ last (main Sample.plain_textstat Sample.offline).2
     = Some AnalysisComplete.
Proof.
  split; [apply offline_entries|].
  split.
  { pose proof (batch_entries_length Sample.plain_textstat
                  (Sample.serving Sample.five_thousand_policy)
                  (policies init)) as H.
    assert (F : tally (fetch_failed (Sample.serving Sample.five_thousand_policy))
                  (policies init) = 0%nat) by reflexivity.
    assert (S : tally (text_too_short (Sample.serving Sample.five_thousand_policy))
                  (policies init) = 0%nat) by (vm_compute; reflexivity).
    rewrite F, S in H. cbn [init policies length] in H.
    cbn [init policies]. lia. }
  rewrite !main_returns.
  split; [reflexivity|]. split; [reflexivity|].
  rewrite main_without_entries by apply offline_entries.
  vm_compute. reflexivity.
Qed.

(** C7, amended. When no document of a run yields an entry, [main] raises
    nothing and returns as usual: after the lines of the documents it
    prints that there are no results to report, that there are no results
    to save, and that the analysis is complete, and the results list is
    left empty. *)
Theorem main_without_success {ties : Ties} (textstat : Textstat) (w : World) :
  batch_entries textstat w (policies init) = [] ->
  main textstat w
  = (Returns tt, init,
     AnalysisBanner :: batch_output textstat w (policies init)
     ++ [NoResultsToReport; NoResultsToSave; AnalysisComplete]).
Proof.
  intros E. unfold main. rewrite analyze_all_spec, E.
  cbn [results init app].
  rewrite generate_report_empty, save_results_empty by reflexivity.
  reflexivity.
Qed.

Lemma main_without_success_witness :
  main Sample.plain_textstat Sample.offline
  = (Returns tt, init,
     AnalysisBanner
     :: batch_output Sample.plain_textstat Sample.offline (policies init)
     ++ [NoResultsToReport; NoResultsToSave; AnalysisComplete]).
Proof.
  apply (main_without_success Sample.plain_textstat Sample.offline).
  vm_compute. reflexivity.
Defined.

(** ** Repeated calls *)

(** C9. [analyze_all] never empties the results list: it returns, and
    leaves in the analyzer, the list held before the call followed by one
    entry per document that succeeded in the call, and keeps the policies.
    A second call on the same analyzer therefore returns the entries of
    the first call followed by those of the second. *)
Theorem analyze_all_accumulates {ties : Ties}
    (textstat : Textstat) (w w' : World) (self : Analyzer) :
  exists (self' self'' : Analyzer) (out out' : list message),
    analyze_all textstat w self = (Returns (results self'), self', out)
    /\ results self'
       = results self ++ batch_entries textstat w (policies self)
    /\ policies self' = policies self
    /\ analyze_all textstat w' self' = (Returns (results self''), self'', out')
    /\ results self''
       = results self ++ batch_entries textstat w (policies self)
         ++ batch_entries textstat w' (policies self)
    /\ policies self'' = policies self.
Proof.
  set (self' := {| policies := policies self;
                   results := results self
                              ++ batch_entries textstat w (policies self) |}).
  exists self'.
  exists {| policies := policies self';
            results := results self'
                       ++ batch_entries textstat w' (policies self') |}.
  eexists. eexists.
  split; [rewrite (analyze_all_spec textstat w self); reflexivity|].
  split; [reflexivity|]. split; [reflexivity|].
  split; [rewrite (analyze_all_spec textstat w' self'); reflexivity|].
  cbn [results policies self']. rewrite <- app_assoc.
  split; reflexivity.
Qed.

(** * Further properties

    ** Ranges of the scores *)

(** For a count that is not negative, the THIRD sub-score is in [0,1],
    whatever the text length. *)
Theorem third_score_in_unit_interval {ties : Ties} (third_party_count text_length : Z) :
  (0 <= third_party_count)%Z ->
  0 <= calculate_third_score third_party_count text_length
  /\ calculate_third_score third_party_count text_length <= 1.
Proof.
  intros H. rewrite third_score_density.
  pose proof (mentions_per_1000_nonneg third_party_count text_length H) as D.
  destruct (density_score_bounds _ D) as [L U].
  apply py_round_3_unit; assumption.
Qed.

Lemma third_score_in_unit_interval_witness :
  0 <= calculate_third_score 37 12000 /\ calculate_third_score 37 12000 <= 1.
Proof. apply (third_score_in_unit_interval 37 12000). lia. Defined.

(** Without a mention, or for a text length that is not positive, the THIRD
    sub-score is 0. *)
Theorem third_score_without_mentions {ties : Ties} (third_party_count text_length : Z) :
  (third_party_count = 0 \/ text_length <= 0)%Z ->
  calculate_third_score third_party_count text_length == 0.
Proof.
  intros H. rewrite third_score_density.
  assert (D : mentions_per_1000 third_party_count text_length == 0).
  { destruct (Z_lt_le_dec 0 text_length) as [P|N].
    - destruct H as [->|H]; [|lia].
      rewrite (mentions_per_1000_pos 0 text_length P).
      change (inject_Z (5000 * 0)) with 0.
      unfold Qdiv. apply Qmult_0_l.
    - rewrite (mentions_per_1000_nonpos _ _ N). reflexivity. }
  apply py_round_3_zero.
  assert (L : mentions_per_1000 third_party_count text_length < 5)
    by (rewrite D; reflexivity).
  rewrite (density_score_low _ L). rewrite D. reflexivity.
Qed.

Lemma third_score_without_mentions_witness :
  calculate_third_score 0 12000 == 0 /\ calculate_third_score 3 (-5) == 0.
Proof.
  split.
  - apply (third_score_without_mentions 0 12000). left. reflexivity.
  - apply (third_score_without_mentions 3 (-5)). right. lia.
Defined.

(** The READ sub-score of a dict that has the three keys the function
    reads is never negative, and it is at most 1 when neither grade level is
    negative. *)
Theorem read_score_in_unit_interval {ties : Ties}
    (metrics : gmap string Q) (ease grade standard : Q) :
  metrics !! "flesch_reading_ease"%string = Some ease ->
  metrics !! "flesch_kincaid_grade"%string = Some grade ->
  metrics !! "text_standard"%string = Some standard ->
  exists read_score,
    calculate_read_score (Some metrics) = Returns read_score
    /\ 0 <= read_score
    /\ (0 <= grade -> 0 <= standard -> read_score <= 1).
Proof.
  intros He Hg Hs.
  eexists. split; [apply (calculate_read_score_eq _ _ _ _ He Hg Hs)|].
  pose proof (py_max_lower_l 0 (py_min 100 ease)) as A0.
  pose proof (py_max_lower_l 0 (1 - py_min grade 20 / 20)) as B0.
  pose proof (py_max_lower_l 0 (1 - py_min standard 20 / 20)) as C0.
  split.
  - apply py_round_3_nonneg. name_parts ease grade standard. qlra.
  - intros G S. apply Qle_trans with (py_round 1 3);
      [apply py_round_mono | rewrite py_round_3_1; apply Qle_refl].
    assert (A : py_max 0 (py_min 100 ease) <= 100).
    { apply py_max_lub; [lra | apply py_min_upper_l]. }
    assert (B : py_max 0 (1 - py_min grade 20 / 20) <= 1).
    { apply py_max_lub; [lra|].
      pose proof (py_min_glb grade 20 0 G ltac:(lra)). qlra. }
    assert (C : py_max 0 (1 - py_min standard 20 / 20) <= 1).
    { apply py_max_lub; [lra|].
      pose proof (py_min_glb standard 20 0 S ltac:(lra)). qlra. }
    name_parts ease grade standard. qlra.
Qed.

Lemma read_score_in_unit_interval_witness :
  exists read_score,
    calculate_read_score (Some (metrics_of Sample.plain_textstat ""))
    = Returns read_score
    /\ 0 <= read_score
    /\ (0 <= 10 -> 0 <= 12 -> read_score <= 1).
Proof.
  apply (read_score_in_unit_interval
           (metrics_of Sample.plain_textstat "") 50 10 12); reflexivity.
Defined.

(** A dict that is not empty and lacks one of the three keys makes
    [calculate_read_score] raise [KeyError] for the first missing key, in
    the order ease, grade, text standard. *)
Theorem read_score_missing_key {ties : Ties} (metrics : gmap string Q) :
  metrics <> ∅ ->
  (metrics !! "flesch_reading_ease"%string = None ->
   calculate_read_score (Some metrics)
   = Raises (KeyError "flesch_reading_ease"))
  /\ (is_Some (metrics !! "flesch_reading_ease"%string) ->
      metrics !! "flesch_kincaid_grade"%string = None ->
      calculate_read_score (Some metrics)
      = Raises (KeyError "flesch_kincaid_grade"))
  /\ (is_Some (metrics !! "flesch_reading_ease"%string) ->
      is_Some (metrics !! "flesch_kincaid_grade"%string) ->
      metrics !! "text_standard"%string = None ->
      calculate_read_score (Some metrics)
      = Raises (KeyError "text_standard")).
Proof.
  intros NE.
  assert (F : falsy_dict (Some metrics) = false)
    by (apply bool_decide_eq_false; exact NE).
  unfold calculate_read_score. rewrite F. unfold getitem.
  split; [|split].
  - intros ->. reflexivity.
  - intros [e ->] ->. reflexivity.
  - intros [e ->] [g ->] ->. reflexivity.
Qed.

Lemma read_score_missing_key_witness :
  calculate_read_score (Some {[ "gunning_fog"%string := 12 ]})
  = Raises (KeyError "flesch_reading_ease")
  /\ calculate_read_score
       (Some {[ "flesch_reading_ease"%string := 50 ]})
     = Raises (KeyError "flesch_kincaid_grade").
Proof.
  split.
  - apply (read_score_missing_key {[ "gunning_fog"%string := 12 ]});
      [apply insert_non_empty | reflexivity].
  - apply (read_score_missing_key {[ "flesch_reading_ease"%string := 50 ]});
      [apply insert_non_empty | eexists; reflexivity | reflexivity].
Defined.

(** ** Order *)

Lemma py_max_mono (a b b' : Q) : b <= b' -> py_max a b <= py_max a b'.
Proof. intros H. apply Q.max_le_compat_l, H. Qed.

Lemma py_min_mono_l (a a' b : Q) : a <= a' -> py_min a b <= py_min a' b.
Proof. intros H. apply Q.min_le_compat_r, H. Qed.

Lemma py_min_mono_r (a b b' : Q) : b <= b' -> py_min a b <= py_min a b'.
Proof. intros H. apply Q.min_le_compat_l, H. Qed.

(** The READ sub-score does not fall when the reading ease grows and the
    grade levels fall. *)
Theorem read_score_monotone {ties : Ties}
    (metrics metrics' : gmap string Q)
    (ease grade standard ease' grade' standard' : Q) :
  metrics !! "flesch_reading_ease"%string = Some ease ->
  metrics !! "flesch_kincaid_grade"%string = Some grade ->
  metrics !! "text_standard"%string = Some standard ->
  metrics' !! "flesch_reading_ease"%string = Some ease' ->
  metrics' !! "flesch_kincaid_grade"%string = Some grade' ->
  metrics' !! "text_standard"%string = Some standard' ->
  ease <= ease' -> grade' <= grade -> standard' <= standard ->
  exists read_score read_score',
    calculate_read_score (Some metrics) = Returns read_score
    /\ calculate_read_score (Some metrics') = Returns read_score'
    /\ read_score <= read_score'.
Proof.
  intros He Hg Hs He' Hg' Hs' Le Lg Ls.
  eexists. eexists.
  split; [apply (calculate_read_score_eq _ _ _ _ He Hg Hs)|].
  split; [apply (calculate_read_score_eq _ _ _ _ He' Hg' Hs')|].
  apply py_round_mono.
  assert (A : py_max 0 (py_min 100 ease) <= py_max 0 (py_min 100 ease'))
    by (apply py_max_mono, py_min_mono_r, Le).
  assert (B : py_max 0 (1 - py_min grade 20 / 20)
              <= py_max 0 (1 - py_min grade' 20 / 20)).
  { apply py_max_mono.
    pose proof (py_min_mono_l grade' grade 20 Lg). qlra. }
  assert (C : py_max 0 (1 - py_min standard 20 / 20)
              <= py_max 0 (1 - py_min standard' 20 / 20)).
  { apply py_max_mono.
    pose proof (py_min_mono_l standard' standard 20 Ls). qlra. }
  revert A B C.
  generalize (py_max 0 (py_min 100 ease)) (py_max 0 (py_min 100 ease'))
             (py_max 0 (1 - py_min grade 20 / 20))
             (py_max 0 (1 - py_min grade' 20 / 20))
             (py_max 0 (1 - py_min standard 20 / 20))
             (py_max 0 (1 - py_min standard' 20 / 20)).
  intros a a' b b' c c' A B C. qlra.
Qed.

Lemma read_score_monotone_witness :
  exists read_score read_score',
    calculate_read_score (Some (metrics_of (Sample.rating 30 14 15) ""))
    = Returns read_score
    /\ calculate_read_score (Some (metrics_of (Sample.rating 60 9 10) ""))
       = Returns read_score'
    /\ read_score <= read_score'.
Proof.
  apply (read_score_monotone
           (metrics_of (Sample.rating 30 14 15) "")
           (metrics_of (Sample.rating 60 9 10) "")
           30 14 15 60 9 10);
    solve [reflexivity | discriminate].
Defined.

(** The combined score of two sub-scores in [0,1] is in [0,1]. *)
Theorem p6_score_in_unit_interval {ties : Ties} (read_score third_score : Q) :
  0 <= read_score -> read_score <= 1 ->
  0 <= third_score -> third_score <= 1 ->
  0 <= calculate_p6_score read_score third_score
  /\ calculate_p6_score read_score third_score <= 1.
Proof.
  intros R0 R1 T0 T1. unfold calculate_p6_score.
  apply py_round_3_unit; lra.
Qed.

Lemma p6_score_in_unit_interval_witness :
  0 <= calculate_p6_score (612 # 1000) (925 # 1000)
  /\ calculate_p6_score (612 # 1000) (925 # 1000) <= 1.
Proof.
  apply (p6_score_in_unit_interval (612 # 1000) (925 # 1000)); discriminate.
Defined.

(** The combined score gives the two sub-scores the same weight, and does
    not fall when a sub-score grows. *)
Theorem p6_score_symmetric_monotone {ties : Ties} (read_score third_score r' t' : Q) :
  calculate_p6_score read_score third_score
  = calculate_p6_score third_score read_score
  /\ (read_score <= r' -> third_score <= t' ->
      calculate_p6_score read_score third_score <= calculate_p6_score r' t').
Proof.
  unfold calculate_p6_score. split.
  - apply py_round_comp. lra.
  - intros R T. apply py_round_mono. lra.
Qed.

Lemma p6_score_symmetric_monotone_witness :
  calculate_p6_score (4 # 10) (9 # 10) <= calculate_p6_score (5 # 10) 1.
Proof.
  destruct (p6_score_symmetric_monotone (4 # 10) (9 # 10) (5 # 10) 1)
    as [_ M].
  apply M; discriminate.
Defined.

(** ** Classes of the report *)

(** The combined score of sub-scores that add up to at least, or at most,
    an even multiple of 1/1000 is at least, or at most, half of it. *)
Lemma p6_score_at_least {ties : Ties} (lo : Z) (read_score third_score : Q) :
  inject_Z lo / 500 <= read_score + third_score ->
  inject_Z lo / 1000 <= calculate_p6_score read_score third_score.
Proof.
  intros L. rewrite Qdiv_const in L.
  unfold calculate_p6_score.
  change 1000 with (pow10 3). rewrite <- (py_round_grid lo 3).
  change (pow10 3) with 1000.
  apply py_round_mono; qlra.
Qed.

Lemma p6_score_at_most {ties : Ties} (hi : Z) (read_score third_score : Q) :
  read_score + third_score <= inject_Z hi / 500 ->
  calculate_p6_score read_score third_score <= inject_Z hi / 1000.
Proof.
  intros U. rewrite Qdiv_const in U.
  unfold calculate_p6_score.
  change 1000 with (pow10 3). rewrite <- (py_round_grid hi 3).
  change (pow10 3) with 1000.
  apply py_round_mono; qlra.
Qed.

(** A row is classed as strong when the two sub-scores add up to 1.4 or
    more, as moderate when they add up to 1.0 or more and to 1.398 or less,
    and as poor when they add up to 0.998 or less. For a sum of 1.399 or of
    0.999 the exact mean is halfway between two scores, and the class
    follows the way the rounded double falls: such a row is strong or
    moderate, or moderate or poor. *)
Theorem classification_by_sub_scores {ties : Ties} (read_score third_score : Q) :
  let p6_score := calculate_p6_score read_score third_score in
  let sum := read_score + third_score in
  (14 # 10 <= sum -> classification p6_score = StrongTransparency)
  /\ (sum <= 1398 # 1000 -> classification p6_score <> StrongTransparency)
  /\ (1 <= sum -> sum <= 1398 # 1000 ->
      classification p6_score = ModerateTransparency)
  /\ (1 <= sum -> classification p6_score <> PoorTransparency)
  /\ (sum <= 998 # 1000 -> classification p6_score = PoorTransparency).
Proof.
  intros p6_score sum. subst sum. unfold classification.
  assert (Strong : 14 # 10 <= read_score + third_score -> 7 # 10 <= p6_score).
  { intros L.
    pose proof (p6_score_at_least 700 read_score third_score) as A.
    change (inject_Z 700) with 700 in A. rewrite !Qdiv_const in A.
    fold p6_score in A. lra. }
  assert (Weak : read_score + third_score <= 1398 # 1000 ->
                 p6_score <= 699 # 1000).
  { intros U.
    pose proof (p6_score_at_most 699 read_score third_score) as B.
    change (inject_Z 699) with 699 in B. rewrite !Qdiv_const in B.
    fold p6_score in B. lra. }
  assert (Fair : 1 <= read_score + third_score -> 5 # 10 <= p6_score).
  { intros L.
    pose proof (p6_score_at_least 500 read_score third_score) as A.
    change (inject_Z 500) with 500 in A. rewrite !Qdiv_const in A.
    fold p6_score in A. lra. }
  assert (Low : read_score + third_score <= 998 # 1000 ->
                p6_score <= 499 # 1000).
  { intros U.
    pose proof (p6_score_at_most 499 read_score third_score) as B.
    change (inject_Z 499) with 499 in B. rewrite !Qdiv_const in B.
    fold p6_score in B. lra. }
  destruct (Qle_bool (7 # 10) p6_score) eqn:A;
    [apply Qle_bool_iff in A
    | assert (A' : ~ 7 # 10 <= p6_score)
        by (rewrite <- Qle_bool_iff, A; discriminate)];
    (destruct (Qle_bool (5 # 10) p6_score) eqn:B;
     [apply Qle_bool_iff in B
     | assert (B' : ~ 5 # 10 <= p6_score)
         by (rewrite <- Qle_bool_iff, B; discriminate)]);
    (split; [|split; [|split; [|split]]]); intros;
    try reflexivity; try discriminate;
    exfalso;
    try (specialize (Strong ltac:(assumption)));
    try (specialize (Weak ltac:(assumption)));
    try (specialize (Fair ltac:(assumption)));
    try (specialize (Low ltac:(assumption)));
    try tauto; lra.
Qed.

Lemma classification_by_sub_scores_witness :
  classification (calculate_p6_score (8 # 10) 1) = StrongTransparency
  /\ classification (calculate_p6_score (4 # 10) (7 # 10))
     = ModerateTransparency
  /\ classification (calculate_p6_score (2 # 10) (3 # 10)) = PoorTransparency.
Proof.
  pose proof (classification_by_sub_scores (8 # 10) 1) as (S & _).
  pose proof (classification_by_sub_scores (4 # 10) (7 # 10)) as (_ & _ & M & _).
  pose proof (classification_by_sub_scores (2 # 10) (3 # 10))
    as (_ & _ & _ & _ & P).
  split; [apply S; discriminate|].
  split; [apply M; discriminate | apply P; discriminate].
Defined.

(** ** The cleaned text *)

Section Cleaning.

Local Open Scope nat_scope.

Lemma re_sub_spaces_single_spaced (in_run : bool) (text : string) :
  single_spaced in_run (re_sub_spaces in_run text) = true.
Proof.
  revert in_run. induction text as [|c rest IH]; intros in_run; [reflexivity|].
  cbn [re_sub_spaces]. destruct (is_space c) eqn:Sp.
  - destruct in_run; [apply IH|].
    cbn [single_spaced]. change (is_space " ") with true.
    rewrite IH. reflexivity.
  - cbn [single_spaced]. rewrite Sp. apply IH.
Qed.

Lemma re_sub_spaces_length (in_run : bool) (text : string) :
  String.length (re_sub_spaces in_run text) <= String.length text.
Proof.
  revert in_run. induction text as [|c rest IH]; intros in_run; [reflexivity|].
  cbn [re_sub_spaces]. destruct (is_space c).
  - destruct in_run; cbn [String.length].
    + specialize (IH true). lia.
    + specialize (IH true). lia.
  - cbn [String.length]. specialize (IH false). lia.
Qed.


(** A text with single spaces only is left as it is. *)
Lemma re_sub_spaces_fixed (in_run : bool) (text : string) :
  single_spaced in_run text = true -> re_sub_spaces in_run text = text.
Proof.
  revert in_run. induction text as [|c rest IH]; intros in_run H; [reflexivity|].
  cbn [single_spaced re_sub_spaces] in *. destruct (is_space c).
  - apply andb_prop in H as [H H3]. apply andb_prop in H as [H1 H2].
    destruct in_run; [discriminate H1|].
    apply bool_decide_eq_true in H2. subst c.
    rewrite (IH true H3). reflexivity.
  - rewrite (IH false H). reflexivity.
Qed.

Lemma split_from_length (word text : string) :
  length (split_from word text)
  <= (if bool_decide (word = ""%string) then 0 else 1) + String.length text.
Proof.
  revert word. induction text as [|c rest IH]; intros word.
  - cbn [split_from String.length]. destruct (bool_decide (word = ""%string));
      cbn [length]; lia.
  - cbn [split_from String.length]. destruct (is_space c).
    + specialize (IH ""%string).
      rewrite bool_decide_eq_true_2 in IH by reflexivity.
      destruct (bool_decide (word = ""%string)); cbn [length]; lia.
    + specialize (IH (word ++ String c "")%string).
      rewrite bool_decide_eq_false_2 in IH by (destruct word; discriminate).
      destruct (bool_decide (word = ""%string)); lia.
Qed.

(** A single-spaced text without a word is empty or one space. *)
Lemma single_spaced_without_words (after_space : bool) (word text : string) :
  single_spaced after_space text = true ->
  split_from word text = [] ->
  word = ""%string
  /\ String.length text <= (if after_space then 0 else 1).
Proof.
  revert after_space word.
  induction text as [|c rest IH]; intros after_space word S E.
  - cbn [split_from] in E. split.
    + destruct (decide (word = ""%string)) as [|N]; [assumption|].
      rewrite bool_decide_eq_false_2 in E by exact N. discriminate E.
    + cbn. destruct after_space; lia.
  - cbn [split_from single_spaced] in *. destruct (is_space c).
    + apply andb_prop in S as [S S3]. apply andb_prop in S as [S1 _].
      destruct after_space; [discriminate S1|].
      destruct (decide (word = ""%string)) as [Z|N].
      * rewrite bool_decide_eq_true_2 in E by exact Z.
        destruct (IH true ""%string S3 E) as [_ L].
        split; [exact Z|]. cbn [String.length]. lia.
      * rewrite bool_decide_eq_false_2 in E by exact N. discriminate E.
    + destruct (IH false _ S E) as [W _].
      destruct word; discriminate W.
Qed.

End Cleaning.

(** The text that [extract_text_from_url] returns for a fetched page has no
    whitespace but single spaces, none next to another, and is not longer
    than the text of the page; a page text that is already so is returned
    as it is. *)
Theorem extract_text_from_url_cleans (w : World) (url raw : string) :
  page_text w url = Some raw ->
  exists text,
    extract_text_from_url w url = (Returns (Some text), [])
    /\ single_spaced false text = true
    /\ (String.length text <= String.length raw)%nat
    /\ (single_spaced false raw = true -> text = raw).
Proof.
  intros P. exists (re_sub_spaces false raw).
  unfold extract_text_from_url. rewrite P.
  split; [reflexivity|].
  split; [apply re_sub_spaces_single_spaced|].
  split; [apply re_sub_spaces_length|].
  apply re_sub_spaces_fixed.
Qed.

Lemma extract_text_from_url_cleans_witness :
  exists text,
    extract_text_from_url
      (Sample.serving Sample.spaced_title)
      "https://proton.me/legal/privacy"
    = (Returns (Some text), [])
    /\ single_spaced false text = true
    /\ (String.length text <= String.length Sample.spaced_title)%nat
    /\ (single_spaced false Sample.spaced_title = true
        -> text = Sample.spaced_title).
Proof.
  apply (extract_text_from_url_cleans
           (Sample.serving Sample.spaced_title)
           "https://proton.me/legal/privacy"
           Sample.spaced_title).
  reflexivity.
Defined.



(** ** Keyword matches *)

Section Matches.

Local Open Scope nat_scope.

Lemma string_prefix_length (s t : string) :
  String.prefix s t = true -> String.length s <= String.length t.
Proof.
  revert t. induction s as [|a s IH]; intros t H; [cbn; lia|].
  destruct t as [|b t]; [discriminate H|].
  cbn [String.prefix] in H. destruct (ascii_dec a b); [|discriminate H].
  cbn [String.length]. specialize (IH t H). lia.
Qed.

(** Matches do not overlap: each takes the length of the keyword. *)
Lemma count_from_bound (skip : nat) (sub text : string) :
  1 <= String.length sub ->
  count_from skip sub text * String.length sub <= String.length text - skip.
Proof.
  intros N. revert skip.
  induction text as [|c rest IH]; intros skip; [cbn; lia|].
  cbn [count_from]. destruct skip as [|k].
  - destruct (String.prefix sub (String c rest)) eqn:P.
    + apply string_prefix_length in P. cbn [String.length] in *.
      specialize (IH (String.length sub - 1)). lia.
    + specialize (IH 0). cbn [String.length]. lia.
  - specialize (IH k). cbn [String.length]. lia.
Qed.

Lemma lower_length (text : string) :
  String.length (lower text) = String.length text.
Proof.
  induction text as [|c rest IH]; [reflexivity|].
  cbn [lower String.length]. rewrite IH. reflexivity.
Qed.

Lemma list_sum_count_bound (text : string) (subs : list string) :
  Forall (fun sub => 4 <= String.length sub) subs ->
  4 * list_sum (map (count text) subs) <= length subs * String.length text.
Proof.
  induction 1 as [|sub subs L _ IH]; [cbn; lia|].
  cbn [map list_sum fold_right length].
  pose proof (count_from_bound 0 sub text ltac:(lia)) as B.
  change (count_from 0 sub text) with (count text sub) in B.
  assert (C : 4 * count text sub <= String.length text).
  { apply Nat.le_trans with (count text sub * String.length sub); [|lia].
    rewrite Nat.mul_comm. apply Nat.mul_le_mono_l, L. }
  change (fold_right Init.Nat.add 0 (map (count text) subs))
    with (list_sum (map (count text) subs)).
  lia.
Qed.

Lemma keywords_length : Forall (fun sub => 4 <= String.length sub) keywords.
Proof. unfold keywords. repeat constructor; cbn; lia. Qed.

Lemma lower_char_idempotent (c : ascii) :
  lower_char (lower_char c) = lower_char c.
Proof.
  destruct c as [[] [] [] [] [] [] [] []]; reflexivity.
Qed.

Lemma lower_idempotent (text : string) : lower (lower text) = lower text.
Proof.
  induction text as [|c rest IH]; [reflexivity|].
  cbn [lower]. rewrite lower_char_idempotent, IH. reflexivity.
Qed.

Lemma lower_empty (text : string) : lower text = ""%string <-> text = ""%string.
Proof. destruct text; cbn; split; intros H; congruence. Qed.

End Matches.

Lemma mentions_bounds (text : string) :
  (0 <= analyze_third_party_mentions (Some text))%Z
  /\ (4 * analyze_third_party_mentions (Some text)
      <= 11 * Z.of_nat (String.length text))%Z.
Proof.
  unfold analyze_third_party_mentions.
  destruct (falsy_str (Some text)); [split; lia|].
  pose proof (list_sum_count_bound (lower text) keywords keywords_length) as B.
  rewrite lower_length in B. change (length keywords) with 11%nat in B.
  split; lia.
Qed.

(** The number of mentions is 0 for an absent or empty text, is never
    negative, and is bounded by the length of the text: the eleven keywords
    have at least four characters each and the matches of one keyword do
    not overlap. *)
Theorem mentions_within_text_length (text : string) :
  analyze_third_party_mentions None = 0%Z
  /\ analyze_third_party_mentions (Some ""%string) = 0%Z
  /\ (0 <= analyze_third_party_mentions (Some text))%Z
  /\ (4 * analyze_third_party_mentions (Some text)
      <= 11 * Z.of_nat (String.length text))%Z.
Proof.
  split; [reflexivity|]. split; [reflexivity|].
  apply mentions_bounds.
Qed.

(** The count ignores the case of letters: two texts that differ in case
    only have the same number of mentions. *)
Theorem mentions_ignore_case (text text' : string) :
  lower text = lower text' ->
  analyze_third_party_mentions (Some text)
  = analyze_third_party_mentions (Some text').
Proof.
  intros E. unfold analyze_third_party_mentions, falsy_str.
  rewrite E.
  assert (B : bool_decide (text = ""%string) = bool_decide (text' = ""%string)).
  { apply bool_decide_ext. rewrite <- (lower_empty text), <- (lower_empty text').
    rewrite E. reflexivity. }
  rewrite B. reflexivity.
Qed.

Lemma mentions_ignore_case_witness :
  analyze_third_party_mentions (Some "We Share With PARTNERS"%string)
  = analyze_third_party_mentions (Some "we share with partners"%string).
Proof.
  apply (mentions_ignore_case "We Share With PARTNERS" "we share with partners").
  reflexivity.
Defined.

(** ** Entries *)

Section Entries.

Context {ties : Ties}.

Variable textstat : Textstat.
Variable w : World.
Variables platform_name url : string.

(** What [analyze_platform] prints for a text of at least 100 characters. *)
Lemma analyze_platform_long_output (text : string) (read_score : Q) :
  extracted w url = Some text ->
  (100 <= String.length text)%nat ->
  calculate_read_score (Some (metrics_of textstat text)) = Returns read_score ->
  let r := entry_of textstat w platform_name url text read_score in
  analyze_platform textstat w platform_name url
  = (Returns (Some r),
     [Analyzing platform_name url;
      Extracted (Word_Count r) (Character_Count r);
      ReadabilityLines (flesch_reading_ease textstat text)
        (flesch_kincaid_grade textstat text) (text_standard textstat text);
      ThirdPartyMentions (Third_Party_Mentions r);
      Scores (READ_Score r) (THIRD_Score r) (P6_Score r)]).
Proof.
  intros E G R r. subst r.
  unfold analyze_platform.
  rewrite (extract_text_from_url_some _ _ _ E). run_steps.
  rewrite falsy_str_false by exact G.
  rewrite analyze_readability_long by exact G.
  rewrite (falsy_dict_false _ _ (metrics_of_ease textstat text)).
  unfold getitem.
  rewrite metrics_of_ease, metrics_of_grade, metrics_of_standard, metrics_of_fog.
  rewrite R. reflexivity.
Qed.

(** An entry comes from a fetched text of at least 100 characters. *)
Lemma analyze_platform_entry (r : AnalysisResult) :
  (analyze_platform textstat w platform_name url).1 = Returns (Some r) ->
  exists text read_score,
    extracted w url = Some text
    /\ (100 <= String.length text)%nat
    /\ calculate_read_score (Some (metrics_of textstat text)) = Returns read_score
    /\ r = entry_of textstat w platform_name url text read_score.
Proof.
  intros H.
  destruct (page_text w url) as [raw|] eqn:P.
  - assert (E : extracted w url = Some (re_sub_spaces false raw))
      by (unfold extracted; rewrite P; reflexivity).
    destruct (Nat.lt_ge_cases (String.length (re_sub_spaces false raw)) 100)
      as [L|G].
    + exfalso.
      destruct (decide (re_sub_spaces false raw = ""%string)) as [Z|NZ].
      * rewrite Z in E.
        rewrite (analyze_platform_empty textstat w platform_name url E) in H.
        discriminate H.
      * rewrite (analyze_platform_short textstat w platform_name url _ E NZ L)
          in H.
        discriminate H.
    + destruct (analyze_platform_long textstat w platform_name url _ E G)
        as (read_score & out & R & A).
      rewrite A in H. injection H as <-.
      exists (re_sub_spaces false raw), read_score. auto.
  - rewrite (analyze_platform_fetch_failed textstat w platform_name url P) in H.
    discriminate H.
Qed.

End Entries.

(** [analyze_platform] raises nothing, and returns an entry exactly when the
    page was fetched and its cleaned text has at least 100 characters. *)
Theorem analyze_platform_outcome {ties : Ties}
    (textstat : Textstat) (w : World) (platform_name url : string) :
  exists result : option AnalysisResult,
    (analyze_platform textstat w platform_name url).1 = Returns result
    /\ (is_Some result
        <-> exists text,
              extracted w url = Some text
              /\ (100 <= String.length text)%nat).
Proof.
  destruct (analyze_platform_returns textstat w platform_name url) as [v Hv].
  exists v. split; [exact Hv|]. split.
  - intros [r ->].
    destruct (analyze_platform_entry textstat w platform_name url r Hv)
      as (text & _ & E & G & _).
    exists text. auto.
  - intros (text & E & G).
    destruct (analyze_platform_long textstat w platform_name url text E G)
      as (read_score & out & _ & A).
    rewrite A in Hv. injection Hv as <-. eexists. reflexivity.
Qed.

(** An entry names its platform and URL, counts at least 100 characters,
    at least one word and no more words than characters, and a number of
    mentions that is not negative and is bounded by the character count. *)
Theorem entry_counts {ties : Ties}
    (textstat : Textstat) (w : World) (platform_name url : string)
    (r : AnalysisResult) :
  (analyze_platform textstat w platform_name url).1 = Returns (Some r) ->
  Platform r = platform_name /\ URL r = url
  /\ (100 <= Character_Count r)%nat
  /\ (1 <= Word_Count r)%nat
  /\ (Word_Count r <= Character_Count r)%nat
  /\ (0 <= Third_Party_Mentions r)%Z
  /\ (4 * Third_Party_Mentions r <= 11 * Z.of_nat (Character_Count r))%Z.
Proof.
  intros H.
  destruct (analyze_platform_entry textstat w platform_name url r H)
    as (text & read_score & E & G & _ & ->).
  unfold entry_of.
  cbn [Platform URL Character_Count Word_Count Third_Party_Mentions].
  split; [reflexivity|]. split; [reflexivity|]. split; [exact G|].
  assert (S : single_spaced false text = true).
  { unfold extracted in E. destruct (page_text w url) as [raw|]; [|discriminate E].
    injection E as <-. apply re_sub_spaces_single_spaced. }
  split.
  { destruct (split text) as [|word rest] eqn:W; [|cbn; lia].
    destruct (single_spaced_without_words false ""%string text S W) as [_ L].
    lia. }
  split.
  { pose proof (split_from_length ""%string text) as L.
    rewrite bool_decide_eq_true_2 in L by reflexivity. exact L. }
  destruct (mentions_bounds text) as [N B].
  split; assumption.
Qed.

Lemma short_paragraph_entry {ties : Ties} (textstat : Textstat) (platform_name url : string) :
  exists read_score,
    (analyze_platform textstat (Sample.serving Sample.short_paragraph)
       platform_name url).1
    = Returns (Some (entry_of textstat (Sample.serving Sample.short_paragraph)
                       platform_name url Sample.short_paragraph read_score)).
Proof.
  destruct (analyze_platform_long textstat
              (Sample.serving Sample.short_paragraph) platform_name url
              Sample.short_paragraph)
    as (read_score & out & _ & A).
  - reflexivity.
  - apply Nat.leb_le. reflexivity.
  - exists read_score. rewrite A. reflexivity.
Qed.

Lemma entry_counts_witness :
  exists r,
    (analyze_platform Sample.plain_textstat
       (Sample.serving Sample.short_paragraph)
       "Proton" "https://proton.me/legal/privacy").1
    = Returns (Some r)
    /\ Platform r = "Proton"%string
    /\ (100 <= Character_Count r)%nat
    /\ (1 <= Word_Count r)%nat.
Proof.
  destruct (short_paragraph_entry Sample.plain_textstat
              "Proton" "https://proton.me/legal/privacy") as [read_score H].
  eexists. split; [exact H|].
  destruct (entry_counts _ _ _ _ _ H) as (P & _ & C & W & _).
  split; [exact P|]. split; [exact C | exact W].
Defined.

(** The scores of an entry: THIRD is in [0,1] and is a multiple of 1/1000
    nearest to the score of the density of the entry's own mention and
    character counts, READ is not negative, and the P6 score is not
    negative and is a multiple of 1/1000 nearest to the mean of the entry's
    READ and THIRD. When the readability library gives the text no negative
    grade level, READ and the P6 score are at most 1. *)
Theorem entry_scores {ties : Ties}
    (textstat : Textstat) (w : World) (platform_name url : string)
    (r : AnalysisResult) :
  (analyze_platform textstat w platform_name url).1 = Returns (Some r) ->
  let score :=
    density_score
      (mentions_per_1000 (Third_Party_Mentions r)
         (Z.of_nat (Character_Count r))) in
  let mean := (5 # 10) * READ_Score r + (5 # 10) * THIRD_Score r in
  ((exists k : Z, THIRD_Score r == inject_Z k / 1000)
   /\ THIRD_Score r - rounding_distance <= score
   /\ score <= THIRD_Score r + rounding_distance)
  /\ ((exists k : Z, P6_Score r == inject_Z k / 1000)
      /\ P6_Score r - rounding_distance <= mean
      /\ mean <= P6_Score r + rounding_distance)
  /\ 0 <= THIRD_Score r /\ THIRD_Score r <= 1
  /\ 0 <= READ_Score r
  /\ 0 <= P6_Score r
  /\ ((forall text, 0 <= flesch_kincaid_grade textstat text) ->
      (forall text, 0 <= text_standard textstat text) ->
      READ_Score r <= 1 /\ P6_Score r <= 1).
Proof.
  intros H.
  destruct (analyze_platform_entry textstat w platform_name url r H)
    as (text & read_score & _ & G & R & ->).
  unfold entry_of.
  cbn [Third_Party_Mentions Character_Count READ_Score THIRD_Score P6_Score].
  destruct (mentions_bounds text) as [N _].
  set (third_party_count := analyze_third_party_mentions (Some text)) in *.
  set (third_score :=
         calculate_third_score third_party_count (Z.of_nat (String.length text))).
  assert (T : 0 <= third_score /\ third_score <= 1)
    by (apply third_score_bounds, N).
  destruct T as [T0 T1].
  destruct (read_score_nonneg _ _ _ _
              (metrics_of_ease textstat text)
              (metrics_of_grade textstat text)
              (metrics_of_standard textstat text)) as (q & Rq & Q0).
  assert (q = read_score) by congruence. subst q.
  cbn zeta. split.
  { subst third_score. unfold calculate_third_score.
    destruct (Z.eqb_spec (Z.of_nat (String.length text)) 0) as [Z|_]; [lia|].
    apply py_round_near. }
  split; [unfold calculate_p6_score; apply py_round_near|].
  split; [exact T0|]. split; [exact T1|]. split; [exact Q0|].
  split.
  - unfold calculate_p6_score. apply py_round_3_nonneg. lra.
  - intros Grade Std.
    destruct (read_score_unit _ _ _ _
                (metrics_of_ease textstat text)
                (metrics_of_grade textstat text)
                (metrics_of_standard textstat text) (Grade text) (Std text))
      as (q & Rq' & _ & Q1).
    assert (q = read_score) by congruence. subst q.
    split; [exact Q1|].
    apply p6_score_bounds; split; assumption.
Qed.

Lemma entry_scores_witness :
  exists r,
    (analyze_platform Sample.plain_textstat
       (Sample.serving Sample.short_paragraph)
       "Proton" "https://proton.me/legal/privacy").1
    = Returns (Some r)
    /\ 0 <= THIRD_Score r /\ THIRD_Score r <= 1
    /\ READ_Score r <= 1 /\ P6_Score r <= 1.
Proof.
  destruct (short_paragraph_entry Sample.plain_textstat
              "Proton" "https://proton.me/legal/privacy") as [read_score H].
  eexists. split; [exact H|].
  destruct (entry_scores _ _ _ _ _ H) as (_ & _ & T0 & T1 & _ & _ & U).
  split; [exact T0|]. split; [exact T1|].
  apply U; intros text; discriminate.
Defined.

(** ** Lines and order of a batch *)

Section BatchLines.

Context {ties : Ties}.

Variable textstat : Textstat.
Variable w : World.

Local Open Scope nat_scope.

Lemma tally_app {A : Type} (p : A -> bool) (l l' : list A) :
  tally p (l ++ l') = tally p l + tally p l'.
Proof. unfold tally. rewrite List.filter_app, length_app. reflexivity. Qed.

(** One failure line for a dropped document, none for a kept one; one
    fetch error line when the fetch raised, none otherwise. *)
Lemma analyze_platform_lines (platform_name url : string) :
  let out := (analyze_platform textstat w platform_name url).2 in
  tally is_failure_line out
  = match (analyze_platform textstat w platform_name url).1 with
    | Returns (Some _) => 0
    | _ => 1
    end
  /\ tally is_fetch_error_line out
     = (if fetch_failed w (platform_name, url) then 1 else 0).
Proof.
  unfold fetch_failed. cbn [fst snd].
  destruct (page_text w url) as [raw|] eqn:P.
  - rewrite bool_decide_eq_false_2 by discriminate.
    assert (E : extracted w url = Some (re_sub_spaces false raw))
      by (unfold extracted; rewrite P; reflexivity).
    destruct (Nat.lt_ge_cases (String.length (re_sub_spaces false raw)) 100)
      as [L|G].
    + destruct (decide (re_sub_spaces false raw = ""%string)) as [Z|NZ].
      * rewrite Z in E.
        rewrite (analyze_platform_empty textstat w platform_name url E).
        split; reflexivity.
      * rewrite (analyze_platform_short textstat w platform_name url _ E NZ L).
        split; reflexivity.
    + destruct (analyze_platform_long textstat w platform_name url _ E G)
        as (read_score & out & R & _).
      rewrite (analyze_platform_long_output
                 textstat w platform_name url _ read_score E G R).
      split; reflexivity.
  - rewrite bool_decide_eq_true_2 by reflexivity.
    rewrite (analyze_platform_fetch_failed textstat w platform_name url P).
    split; reflexivity.
Qed.

Lemma batch_output_lines (items : list (string * string)) :
  tally is_failure_line (batch_output textstat w items)
  + length (batch_entries textstat w items)
  = length items
  /\ tally is_fetch_error_line (batch_output textstat w items)
     = tally (fetch_failed w) items.
Proof.
  induction items as [|[platform url] rest [IH1 IH2]]; [split; reflexivity|].
  rewrite batch_entries_cons.
  unfold batch_output in *. cbn [map concat fst snd].
  rewrite !tally_app.
  destruct (analyze_platform_lines platform url) as [F E].
  cbn zeta in F, E. rewrite F, E, IH2.
  split.
  - destruct (analyze_platform textstat w platform url).1 as [[r|]|e];
      cbn [length]; lia.
  - unfold tally. cbn [List.filter].
    destruct (fetch_failed w (platform, url)); cbn [length]; lia.
Qed.

(** The entries of a pass name documents of the list, in its order. *)
Lemma batch_entries_sublist (items : list (string * string)) :
  sublist (map (fun r => (Platform r, URL r)) (batch_entries textstat w items))
    items.
Proof.
  induction items as [|[platform url] rest IH]; [constructor|].
  rewrite batch_entries_cons.
  destruct (analyze_platform textstat w platform url).1 as [[r|]|e] eqn:H.
  - destruct (analyze_platform_entry textstat w platform url r H)
      as (text & read_score & _ & _ & _ & ->).
    cbn [map entry_of Platform URL]. apply sublist_skip, IH.
  - apply sublist_cons, IH.
  - apply sublist_cons, IH.
Qed.

End BatchLines.

(** Every document that [analyze_all] drops leaves exactly one failure line
    in the output, and every fetch that raised leaves exactly one error
    line: the failure lines and the new entries together are as many as the
    documents. *)
Theorem analyze_all_reports_every_drop {ties : Ties}
    (textstat : Textstat) (w : World) (self : Analyzer) :
  exists (self' : Analyzer) (out : list message),
    analyze_all textstat w self = (Returns (results self'), self', out)
    /\ (tally is_failure_line out + length (results self')
        = length (results self) + length (policies self))%nat
    /\ tally is_fetch_error_line out = tally (fetch_failed w) (policies self).
Proof.
  exists {| policies := policies self;
            results := results self
                       ++ batch_entries textstat w (policies self) |}.
  eexists. split; [rewrite (analyze_all_spec textstat w self); reflexivity|].
  cbn [results]. rewrite length_app.
  destruct (batch_output_lines textstat w (policies self)) as [F E].
  split.
  - change (tally is_failure_line (AnalysisBanner :: ?l))
      with (tally is_failure_line l). lia.
  - exact E.
Qed.

(** The entries that a call of [analyze_all] adds come after the entries
    held before, and name documents of the policies in the order of the
    policies, each document at most once. *)
Theorem analyze_all_keeps_order {ties : Ties}
    (textstat : Textstat) (w : World) (self : Analyzer) :
  exists (self' : Analyzer) (out : list message) (new : list AnalysisResult),
    analyze_all textstat w self = (Returns (results self'), self', out)
    /\ results self' = results self ++ new
    /\ sublist (map (fun r => (Platform r, URL r)) new) (policies self).
Proof.
  exists {| policies := policies self;
            results := results self
                       ++ batch_entries textstat w (policies self) |}.
  eexists. exists (batch_entries textstat w (policies self)).
  split; [rewrite (analyze_all_spec textstat w self); reflexivity|].
  split; [reflexivity|].
  apply batch_entries_sublist.
Qed.

(** ** The names of the saved files *)

Section FileNames.

Local Open Scope string_scope.

Lemma replace_absent (old new text : string) :
  count text old = 0%nat -> PyReplace.replace text old new = text.
Proof.
  unfold count, PyReplace.replace.
  induction text as [|c rest IH]; intros H; [reflexivity|].
  cbn [count_from PyReplace.replace_from] in *.
  destruct (String.prefix old (String c rest)); [discriminate H|].
  rewrite (IH H). reflexivity.
Qed.

Lemma replace_extension (base : string) :
  count base "." = 0%nat ->
  PyReplace.replace (base ++ ".csv") ".csv" ".json" = base ++ ".json".
Proof.
  unfold count, PyReplace.replace.
  induction base as [|c rest IH]; intros H; [reflexivity|].
  cbn [count_from] in H.
  change (String c rest ++ ".csv") with (String c (rest ++ ".csv")).
  cbn [PyReplace.replace_from String.prefix] in *.
  destruct (ascii_dec "." c) as [|N]; [destruct rest; discriminate H|].
  rewrite (IH H). reflexivity.
Qed.

End FileNames.

(** With results to save and a file name that does not contain [.csv],
    [save_results] writes the JSON file under the name of the CSV file it
    has just written. *)
Theorem save_results_same_name (self : Analyzer) (filename : string) :
  results self <> [] ->
  count filename ".csv" = 0%nat ->
  save_results self filename
  = (Returns tt,
     [SavedCsv filename (results self); SavedJson filename (results self)]).
Proof.
  intros NE H. unfold save_results.
  destruct (results self) as [|r rest] eqn:E; [contradiction|].
  run_steps. rewrite (replace_absent _ _ _ H). reflexivity.
Qed.

(** With results to save and a file name that ends in [.csv] and has no
    other dot, the JSON file gets the same name with [.json] for [.csv]. *)
Theorem save_results_json_name (self : Analyzer) (base : string) :
  results self <> [] ->
  count base "." = 0%nat ->
  save_results self (base ++ ".csv")
  = (Returns tt,
     [SavedCsv (base ++ ".csv") (results self);
      SavedJson (base ++ ".json") (results self)]).
Proof.
  intros NE H. unfold save_results.
  destruct (results self) as [|r rest] eqn:E; [contradiction|].
  run_steps. rewrite (replace_extension _ H). reflexivity.
Qed.

Lemma save_results_same_name_witness :
  save_results Sample.analyzed "report.txt"
  = (Returns tt,
     [SavedCsv "report.txt" (results Sample.analyzed);
      SavedJson "report.txt" (results Sample.analyzed)]).
Proof.
  apply (save_results_same_name Sample.analyzed "report.txt");
    [vm_compute; discriminate | reflexivity].
Defined.

Lemma save_results_json_name_witness :
  save_results Sample.analyzed "privacy_policy_analysis.csv"
  = (Returns tt,
     [SavedCsv "privacy_policy_analysis.csv" (results Sample.analyzed);
      SavedJson "privacy_policy_analysis.json" (results Sample.analyzed)]).
Proof.
  apply (save_results_json_name Sample.analyzed "privacy_policy_analysis");
    [vm_compute; discriminate | reflexivity].
Defined.

(** ** The density alone decides the THIRD sub-score *)

Lemma density_score_comp (d d' : Q) :
  d == d' -> density_score d == density_score d'.
Proof.
  intros E. destruct (Qlt_le_dec d 5) as [L|G].
  - rewrite (density_score_low d L).
    rewrite (density_score_low d') by (rewrite <- E; exact L).
    rewrite E. reflexivity.
  - destruct (Qlt_le_dec 15 d) as [L'|G'].
    + rewrite (density_score_high d L').
      rewrite (density_score_high d') by (rewrite <- E; exact L').
      unfold py_max. rewrite E. reflexivity.
    + rewrite (density_score_band d G G').
      rewrite (density_score_band d') by (rewrite <- E; assumption).
      reflexivity.
Qed.

(** A text [k] times as long with [k] times as many mentions has the same
    THIRD sub-score. *)
Theorem third_score_scale {ties : Ties} (k third_party_count text_length : Z) :
  (0 < k)%Z -> (0 < text_length)%Z ->
  calculate_third_score (k * third_party_count) (k * text_length)
  = calculate_third_score third_party_count text_length.
Proof.
  intros K L.
  assert (KL : (0 < k * text_length)%Z) by lia.
  unfold calculate_third_score.
  destruct (Z.eqb_spec (k * text_length) 0) as [Z|_]; [lia|].
  destruct (Z.eqb_spec text_length 0) as [Z|_]; [lia|].
  cbn zeta. apply py_round_comp, density_score_comp.
  rewrite (mentions_per_1000_pos _ _ KL), (mentions_per_1000_pos _ _ L).
  assert (Qk : 0 < inject_Z k)
    by (change 0 with (inject_Z 0); rewrite <- Zlt_Qlt; exact K).
  assert (Ql : 0 < inject_Z text_length)
    by (change 0 with (inject_Z 0); rewrite <- Zlt_Qlt; exact L).
  rewrite !inject_Z_mult. field. split; lra.
Qed.

Lemma third_score_scale_witness :
  calculate_third_score (3 * 7) (3 * 9000) = calculate_third_score 7 9000.
Proof. apply (third_score_scale 3 7 9000); lia. Defined.

(** ** Values out of range *)

(** A reading ease is counted as if clamped to [0,100], and a grade level
    above 20 as 20. *)
Theorem read_score_clamps {ties : Ties}
    (metrics metrics' : gmap string Q) (ease grade standard : Q) :
  metrics !! "flesch_reading_ease"%string = Some ease ->
  metrics !! "flesch_kincaid_grade"%string = Some grade ->
  metrics !! "text_standard"%string = Some standard ->
  metrics' !! "flesch_reading_ease"%string
  = Some (py_max 0 (py_min 100 ease)) ->
  metrics' !! "flesch_kincaid_grade"%string = Some (py_min grade 20) ->
  metrics' !! "text_standard"%string = Some (py_min standard 20) ->
  calculate_read_score (Some metrics') = calculate_read_score (Some metrics).
Proof.
  intros He Hg Hs He' Hg' Hs'.
  rewrite (calculate_read_score_eq _ _ _ _ He Hg Hs).
  rewrite (calculate_read_score_eq _ _ _ _ He' Hg' Hs').
  f_equal. apply py_round_comp.
  assert (A : py_max 0 (py_min 100 (py_max 0 (py_min 100 ease)))
              == py_max 0 (py_min 100 ease)).
  { unfold py_max, py_min.
    rewrite (Q.min_r 100 (Qmax 0 (Qmin 100 ease))).
    - apply Q.max_r, Q.le_max_l.
    - apply Q.max_lub; [lra | apply Q.le_min_l]. }
  assert (B : py_min (py_min grade 20) 20 == py_min grade 20).
  { unfold py_min. apply Q.min_l, Q.le_min_r. }
  assert (C : py_min (py_min standard 20) 20 == py_min standard 20).
  { unfold py_min. apply Q.min_l, Q.le_min_r. }
  unfold py_max in *. rewrite A, B, C. reflexivity.
Qed.

Lemma read_score_clamps_witness :
  calculate_read_score (Some (metrics_of (Sample.rating 100 20 12) ""))
  = calculate_read_score (Some (metrics_of (Sample.rating 121 35 12) "")).
Proof.
  apply (read_score_clamps
           (metrics_of (Sample.rating 121 35 12) "")
           (metrics_of (Sample.rating 100 20 12) "") 121 35 12);
    reflexivity.
Defined.

(** ** A run with entries *)

(** When at least one document yields an entry, [main] reports the entries
    of the pass and saves them as [privacy_policy_analysis.csv] and
    [privacy_policy_analysis.json] before it prints that the analysis is
    complete, and leaves them in the analyzer. *)
Theorem main_with_entries {ties : Ties} (textstat : Textstat) (w : World) :
  let entries := batch_entries textstat w (policies init) in
  entries <> [] ->
  main textstat w
  = (Returns tt,
     {| policies := policies init; results := entries |},
     AnalysisBanner :: batch_output textstat w (policies init)
     ++ [ComparativeReport entries;
         SavedCsv "privacy_policy_analysis.csv" entries;
         SavedJson "privacy_policy_analysis.json" entries;
         AnalysisComplete]).
Proof.
  intros entries NE. unfold main. rewrite analyze_all_spec.
  change (results init ++ batch_entries textstat w (policies init))
    with entries.
  unfold generate_report, save_results. cbn [results].
  destruct entries as [|r rest]; [contradiction|].
  reflexivity.
Qed.

Lemma main_with_entries_witness :
  (main Sample.plain_textstat (Sample.serving Sample.short_paragraph)).1.1
  = Returns tt.
Proof.
  rewrite (main_with_entries Sample.plain_textstat
             (Sample.serving Sample.short_paragraph));
    [reflexivity | vm_compute; discriminate].
Defined.
